(** * RAG-Blueprint data ingestion: the Provider and the Chunk-and-Load Processor

    A shallow embedding of
      - [components/rag_docling_component.py]   (the Processor),
      - [scripts/rag-docling.py]                (the stand-alone script),
      - [components/s3_document_provider.py]    (the bucket Provider),
      - [tests/local_pipeline_runner.py]        (the local-files Provider branch),
    followed by the properties of their orchestration logic.

    The document converter, the chunker, the vector-database client, the
    bucket client, the file system and the JSON reader are external
    collaborators: they appear as fields of a [World] record, and every
    theorem holds for all worlds.  Calls to [print] are left out. *)

From Stdlib Require Import List String Ascii ZArith Lia Bool Arith.
From Stdlib Require Import DecimalString DecimalNat.
Import ListNotations.
Local Open Scope string_scope.
Set Warnings "-register-all,-notation-for-abbreviation".

(* ================================================================== *)
(** ** Python values that cross the component boundaries *)

(** What [json.load] returns and [json.dump] accepts.  A [JObj] carries
    the items of a Python dict in insertion order. *)
Inductive json : Type :=
| JNull
| JBool (b : bool)
| JInt (n : Z)
| JFloat (repr : string)
| JStr (s : string)
| JList (items : list json)
| JObj (members : list (string * json)).

Module Py.

(** [d[k]], as an option: [Some v] exactly when [k in d], [None] where
    Python raises [KeyError]. *)
Fixpoint getitem (k : string) (d : list (string * json)) : option json :=
  match d with
  | [] => None
  | (k', v) :: rest => if String.eqb k k' then Some v else getitem k rest
  end.

(** The characters of a string, each as a one-character string. *)
Fixpoint chars (s : string) : list string :=
  match s with
  | EmptyString => []
  | String c rest => String c EmptyString :: chars rest
  end.

(** [len(v)]; [None] where Python raises [TypeError]. *)
Definition len (v : json) : option nat :=
  match v with
  | JList items => Some (List.length items)
  | JStr s => Some (String.length s)
  | JObj members => Some (List.length members)
  | JNull | JBool _ | JInt _ | JFloat _ => None
  end.

(** The values [for x in v] binds [x] to; [None] where Python raises
    [TypeError]. *)
Definition iter (v : json) : option (list json) :=
  match v with
  | JList items => Some items
  | JStr s => Some (map JStr (chars s))
  | JObj members => Some (map (fun kv => JStr (fst kv)) members)
  | JNull | JBool _ | JInt _ | JFloat _ => None
  end.

(** [s.endswith(suffix)] *)
Definition endswith (s suffix : string) : bool :=
  (String.length suffix <=? String.length s)%nat &&
  String.eqb
    (substring (String.length s - String.length suffix)
               (String.length suffix) s)
    suffix.

(** [s.lower()] for a string of ASCII characters: the letters A-Z are
    folded, every other character is kept. *)
Definition lower_ascii (c : ascii) : ascii :=
  let n := nat_of_ascii c in
  if ((65 <=? n) && (n <=? 90))%nat then ascii_of_nat (n + 32) else c.

Fixpoint lower (s : string) : string :=
  match s with
  | EmptyString => EmptyString
  | String c rest => String (lower_ascii c) (lower rest)
  end.

(** [str(n)] for a natural number. *)
Definition str_nat (n : nat) : string :=
  NilEmpty.string_of_uint (Nat.to_uint n).

(** [os.path.basename(p)]: what follows the last slash.  [acc] holds
    the characters read since the last slash. *)
Fixpoint basename_from (acc p : string) : string :=
  match p with
  | EmptyString => acc
  | String c rest =>
      if Ascii.eqb c "/"%char then basename_from EmptyString rest
      else basename_from (acc ++ String c EmptyString) rest
  end.

Definition basename (p : string) : string := basename_from EmptyString p.

(** [os.path.join(a, b)] for a relative [b]. *)
Definition path_join (a b : string) : string :=
  if String.eqb a "" then b
  else if endswith a "/" then a ++ b
  else a ++ "/" ++ b.

(** [s.split(sep)] for a one-character separator.  [acc] holds the
    characters read since the last separator. *)
Fixpoint split_from (sep : ascii) (acc s : string) : list string :=
  match s with
  | EmptyString => [acc]
  | String c rest =>
      if Ascii.eqb c sep then acc :: split_from sep EmptyString rest
      else split_from sep (acc ++ String c EmptyString) rest
  end.

Definition split (sep : ascii) (s : string) : list string :=
  split_from sep EmptyString s.

End Py.

(** How a call to an external service ended: [None] when it returned,
    [Some msg] when it raised an exception whose [str] is [msg]. *)
Definition raised_with := option string.

(* ================================================================== *)
(** ** The Processor: [rag_docling_component] *)

(** [docling_core.types.doc.labels.DocItemLabel] *)
Inductive DocItemLabel : Type :=
| CAPTION | CHART | CHECKBOX_SELECTED | CHECKBOX_UNSELECTED | CODE
| DOCUMENT_INDEX | FOOTNOTE | FORM | FORMULA | KEY_VALUE_REGION
| LIST_ITEM | PAGE_FOOTER | PAGE_HEADER | PARAGRAPH | PICTURE
| REFERENCE | SECTION_HEADER | TABLE | TEXT | TITLE.

Definition DocItemLabel_eq_dec (a b : DocItemLabel) : {a = b} + {a <> b}.
Proof. decide equality. Defined.

Definition label_eqb (a b : DocItemLabel) : bool :=
  if DocItemLabel_eq_dec a b then true else false.

(** The parts of a chunk the Processor reads: [chunk.text] and, through
    [chunk.meta.doc_items], the [label] of every source item. *)
Record DocItem : Type := { label : DocItemLabel }.
Record ChunkMeta : Type := { doc_items : list DocItem }.
Record Chunk : Type := { text : string; meta : ChunkMeta }.

(** The body of the [try] block for one document, seen from outside:
    [converter.convert] followed by the lazy iteration of
    [chunker.chunk].  The chunks in [yielded] are delivered to the loop
    body one by one; afterwards the iteration either ends ([raised = None])
    or an exception is raised ([raised = Some msg]).  A failing
    [converter.convert] is the case [yielded = []]. *)
Record Conversion : Type := {
  yielded : list Chunk;
  raised : raised_with
}.

Record LlamaStackDocument : Type := {
  document_id : string;
  content : string;
  mime_type : string;
  metadata : list (string * json)
}.

(** [LlamaStackClient(base_url=...)]: the two remote calls the Processor
    makes. *)
Record Client : Type := {
  vector_dbs_register :
    forall (vector_db_id embedding_model : string)
           (embedding_dimension : Z) (provider_id : string), raised_with;
  rag_tool_insert :
    forall (documents : list LlamaStackDocument) (vector_db_id : string)
           (chunk_size_in_tokens : Z), raised_with
}.

(** One entry of a page's ['Contents'].  [LastModified] holds what
    [obj['LastModified'].isoformat()] evaluates to. *)
Record S3Object : Type := {
  Key : string;
  Size : Z;
  LastModified : string
}.

(** One page of [list_objects_v2]: [None] when the page has no
    ['Contents'] key. *)
Definition Page : Type := option (list S3Object).

(** [boto3.client("s3", ...)] *)
Record S3Client : Type := {
  (** [get_paginator('list_objects_v2').paginate(Bucket=..., Prefix=...)] *)
  paginate : forall (Bucket Prefix : string), list Page;
  (** [download_file(bucket, key, filename)] *)
  download_file : forall (bucket key filename : string), raised_with
}.

(** Everything outside the repository's own code. *)
Record World : Type := {
  (** [os.path.isfile] *)
  isfile : string -> bool;
  (** [json.load] on the file at a path: [None] for [json.JSONDecodeError];
      the other ways reading can end are in [Loaded] below *)
  json_load : string -> option json;
  (** [converter.convert(source=...)] and [chunker.chunk] *)
  convert_chunk : json -> Conversion;
  LlamaStackClient : string -> Client;
  (** [boto3.client("s3", endpoint_url=..., aws_access_key_id=...,
      aws_secret_access_key=...)] *)
  boto3_client : forall (endpoint_url access_key secret_key : string), S3Client;
  (** [Path(directory).glob(pattern)], every path through [str] *)
  glob : string -> string -> list string
}.

(** *** Step 2: resolving the document list *)

Definition resolve_documents (w : World) (document_path : string) : json :=
  if isfile w document_path then
    if Py.endswith document_path ".json" then
      match json_load w document_path with
      | Some (JList items) => JList items
      | Some (JObj file_data) =>
          match Py.getitem "document_paths" file_data with
          | Some v => v
          | None =>
              match Py.getitem "documents" file_data with
              | Some v => v
              | None => JList [JStr document_path]
              end
          end
      | Some _ => JList [JStr document_path]
      | None => JList [JStr document_path]
      end
    else JList [JStr document_path]
  else JList [].

(** *** Step 3: convert, chunk and prepare *)

(** [any(c.label in [TEXT, PARAGRAPH] for c in chunk.meta.doc_items)] *)
Definition label_in (l : DocItemLabel) (ls : list DocItemLabel) : bool :=
  existsb (label_eqb l) ls.

Definition retained (chunk : Chunk) : bool :=
  existsb (fun c => label_in (label c) [TEXT; PARAGRAPH])
          (doc_items (meta chunk)).

(** [f"doc-{i}"] *)
Definition doc_id (i : nat) : string := "doc-" ++ Py.str_nat i.

Definition make_document (i : nat) (chunk : Chunk) (file_path : json)
  : LlamaStackDocument :=
  {| document_id := doc_id i;
     content := text chunk;
     mime_type := "text/plain";
     metadata := [("source", file_path)] |}.

(** [{"file": ..., "chunks": ...}] and [{"file": ..., "error": ...}] *)
Record ProcessedEntry : Type := { p_file : json; p_chunks : nat }.
Record FailedEntry : Type := { f_file : json; f_error : string }.

(** The variables the document loop updates.  [processed_documents] and
    [failed_documents] are the two lists held in [processing_metrics]. *)
Record LoopState : Type := {
  i : nat;
  llama_documents : list LlamaStackDocument;
  processed_documents : list ProcessedEntry;
  failed_documents : list FailedEntry
}.

Definition initial_state : LoopState :=
  {| i := 0; llama_documents := [];
     processed_documents := []; failed_documents := [] |}.

(** [for chunk in chunks: ...] over the chunks that are delivered, with
    the counters [i], [chunk_count] and the list [llama_documents]. *)
Fixpoint chunk_loop (file_path : json) (chunks : list Chunk)
    (i chunk_count : nat) (docs : list LlamaStackDocument)
  : nat * nat * list LlamaStackDocument :=
  match chunks with
  | [] => (i, chunk_count, docs)
  | chunk :: rest =>
      if retained chunk then
        chunk_loop file_path rest (S i) (S chunk_count)
                   (docs ++ [make_document (S i) chunk file_path])
      else chunk_loop file_path rest i chunk_count docs
  end.

(** One iteration of [for file_path in documents]. *)
Definition process_document (w : World) (st : LoopState) (file_path : json)
  : LoopState :=
  let conv := convert_chunk w file_path in
  let '(i', chunk_count, docs') :=
    chunk_loop file_path (yielded conv) (i st) 0 (llama_documents st) in
  match raised conv with
  | None =>
      {| i := i'; llama_documents := docs';
         processed_documents :=
           processed_documents st
             ++ [{| p_file := file_path; p_chunks := chunk_count |}];
         failed_documents := failed_documents st |}
  | Some error_message =>
      {| i := i'; llama_documents := docs';
         processed_documents := processed_documents st;
         failed_documents :=
           failed_documents st
             ++ [{| f_file := file_path; f_error := error_message |}] |}
  end.

Definition document_loop (w : World) (documents : list json) (st : LoopState)
  : LoopState :=
  fold_left (process_document w) documents st.

(** *** Steps 4 and 5, and the metrics *)

(** The value stored under [vector_db_registration] and
    [vector_db_insertion]: the string ["success"], or the object
    [{"status": "failed", "error": msg}]. *)
Inductive CallStatus : Type :=
| Success
| Failed (error : string).

Definition status_of (r : raised_with) : CallStatus :=
  match r with None => Success | Some error_message => Failed error_message end.

Record ProcessingMetrics : Type := {
  document_count : nat;
  m_processed_documents : list ProcessedEntry;
  m_failed_documents : list FailedEntry;
  total_chunks : nat;
  vector_db_registration : CallStatus;
  vector_db_insertion : CallStatus
}.

(** The calls that leave the Processor, in the order they are made. *)
Inductive Event : Type :=
| Register (vector_db_id embedding_model : string)
           (embedding_dimension : Z) (provider_id : string)
| Insert (documents : list LlamaStackDocument) (vector_db_id : string)
         (chunk_size_in_tokens : Z)
| WriteMetrics (path : string) (metrics : ProcessingMetrics).

(** How a function ended. *)
Inductive Outcome (A : Type) : Type :=
| Returned (value : A)
| Raised (exception : string).
Arguments Returned {A} value.
Arguments Raised {A} exception.

Record Run : Type := {
  events : list Event;
  outcome : Outcome nat
}.

(** Lines 126-171: everything after the document loop. *)
Definition report (client : Client) (metrics_path : string)
    (embedding_model : string) (embedding_dimension : Z)
    (provider_id vector_db_id : string)
    (document_count : nat) (st : LoopState) : Run :=
  let total_chunks := List.length (llama_documents st) in
  let registration :=
    vector_dbs_register client vector_db_id embedding_model
                        embedding_dimension provider_id in
  let insertion :=
    rag_tool_insert client (llama_documents st) vector_db_id 512 in
  let processing_metrics :=
    {| document_count := document_count;
       m_processed_documents := processed_documents st;
       m_failed_documents := failed_documents st;
       total_chunks := total_chunks;
       vector_db_registration := status_of registration;
       vector_db_insertion := status_of insertion |} in
  {| events :=
       [ Register vector_db_id embedding_model embedding_dimension provider_id;
         Insert (llama_documents st) vector_db_id 512;
         WriteMetrics metrics_path processing_metrics ];
     outcome := Returned total_chunks |}.

Definition rag_docling_component (w : World)
    (document_path metrics_path llama_stack_url embedding_model : string)
    (embedding_dimension : Z) (provider_id vector_db_id : string) : Run :=
  let client := LlamaStackClient w llama_stack_url in
  let documents := resolve_documents w document_path in
  match Py.len documents, Py.iter documents with
  | Some n, Some file_paths =>
      let st := document_loop w file_paths initial_state in
      report client metrics_path embedding_model embedding_dimension
             provider_id vector_db_id n st
  | _, _ =>
      (* [len(documents)] raises before anything is written *)
      {| events := []; outcome := Raised "TypeError" |}
  end.

(** *** Step 2 again: every way reading the manifest can end *)

(** How [open(document_path, 'r')] followed by [json.load(f)] ends. *)
Inductive Loaded : Type :=
| Parsed (file_data : json)
| DecodeError                      (* [json.JSONDecodeError] *)
| OtherError (exception : string). (* any other exception, for instance
                                      [UnicodeDecodeError], [RecursionError]
                                      or the [ValueError] of an integer
                                      with too many digits *)

(** Lines 53-71 as a function of what the file system answers:
    [file_exists] is [os.path.isfile(document_path)].  Only
    [json.JSONDecodeError] is caught; an [OtherError] leaves the
    function. *)
Definition resolve_loaded (file_exists : bool) (document_path : string)
    (loaded : Loaded) : Outcome json :=
  if file_exists then
    if Py.endswith document_path ".json" then
      match loaded with
      | Parsed (JList items) => Returned (JList items)
      | Parsed (JObj file_data) =>
          match Py.getitem "document_paths" file_data with
          | Some v => Returned v
          | None =>
              match Py.getitem "documents" file_data with
              | Some v => Returned v
              | None => Returned (JList [JStr document_path])
              end
          end
      | Parsed _ => Returned (JList [JStr document_path])
      | DecodeError => Returned (JList [JStr document_path])
      | OtherError exception => Raised exception
      end
    else Returned (JList [JStr document_path])
  else Returned (JList []).

(** The worlds of [World] are those in which reading the manifest ends
    with a parsed value or with [json.JSONDecodeError]. *)
Definition loaded_of (r : option json) : Loaded :=
  match r with
  | Some file_data => Parsed file_data
  | None => DecodeError
  end.

(* ================================================================== *)
(** ** The stand-alone script: [process_documents_to_vectordb] *)

(** The same chunk loop without [chunk_count]. *)
Fixpoint script_chunk_loop (file_path : json) (chunks : list Chunk)
    (i : nat) (docs : list LlamaStackDocument)
  : nat * list LlamaStackDocument :=
  match chunks with
  | [] => (i, docs)
  | chunk :: rest =>
      if retained chunk then
        script_chunk_loop file_path rest (S i)
                          (docs ++ [make_document (S i) chunk file_path])
      else script_chunk_loop file_path rest i docs
  end.

(** One iteration of the script's document loop: an exception is printed
    and the loop goes on. *)
Definition script_process_document (w : World)
    (st : nat * list LlamaStackDocument) (file_path : json)
  : nat * list LlamaStackDocument :=
  script_chunk_loop file_path (yielded (convert_chunk w file_path))
                    (fst st) (snd st).

Definition process_documents_to_vectordb (w : World)
    (llama_stack_url : string) (documents : list json)
    (embedding_model : string) (embedding_dimension : Z)
    (provider_id vector_db_id : string) : Run :=
  let llama_documents :=
    snd (fold_left (script_process_document w) documents (0, [])) in
  {| events :=
       [ Register vector_db_id embedding_model embedding_dimension provider_id;
         Insert llama_documents vector_db_id 512 ];
     outcome := Returned (List.length llama_documents) |}.

(* ================================================================== *)
(** ** The bucket Provider: [s3_document_provider] *)

(** One element of [downloaded_files]. *)
Record DownloadedFile : Type := {
  file_path : string;
  key : string;
  size : Z;
  last_modified : string
}.

(** The variables of the enumeration.  [visited] is not a variable of the
    program: it logs, in order, the key of every object the body of
    [for obj in page['Contents']] was entered for. *)
Record ProviderState : Type := {
  downloaded_files : list DownloadedFile;
  file_count : Z;
  visited : list string
}.

Definition matches_extension (file_extensions : list string) (key : string)
  : bool :=
  existsb (fun ext => Py.endswith (Py.lower key) (Py.lower ext))
          file_extensions.

Section Enumeration.

Variable s3 : S3Client.
Variables bucket_name download_dir : string.
Variable file_extensions : list string.
Variable max_files : Z.

(** [for obj in page['Contents']: ...] *)
Fixpoint object_loop (objs : list S3Object) (st : ProviderState)
  : ProviderState :=
  match objs with
  | [] => st
  | obj :: rest =>
      let key := Key obj in
      let st :=
        {| downloaded_files := downloaded_files st;
           file_count := file_count st;
           visited := visited st ++ [key] |} in
      if negb (matches_extension file_extensions key) then
        object_loop rest st
      else
        let local_file_path :=
          Py.path_join download_dir (Py.basename key) in
        match download_file s3 bucket_name key local_file_path with
        | None =>
            let st' :=
              {| downloaded_files :=
                   downloaded_files st
                     ++ [{| file_path := local_file_path;
                            key := key;
                            size := Size obj;
                            last_modified := LastModified obj |}];
                 file_count := file_count st + 1;
                 visited := visited st |} in
            if (max_files <=? file_count st')%Z then st'
            else object_loop rest st'
        | Some _ => object_loop rest st
        end
  end.

(** [for page in pages: ...] *)
Fixpoint page_loop (pages : list Page) (st : ProviderState)
  : ProviderState :=
  match pages with
  | [] => st
  | None :: rest => page_loop rest st
  | Some contents :: rest =>
      let st' := object_loop contents st in
      if (max_files <=? file_count st')%Z then st'
      else page_loop rest st'
  end.

End Enumeration.

Definition details_json (d : DownloadedFile) : json :=
  JObj [ ("file_path", JStr (file_path d));
         ("key", JStr (key d));
         ("size", JInt (size d));
         ("last_modified", JStr (last_modified d)) ].

(** The dict [result] written to [output_path]. *)
Definition bucket_manifest (bucket_name minio_endpoint : string)
    (downloaded_files : list DownloadedFile) : json :=
  JObj [ ("document_paths",
          JList (map (fun doc => JStr (file_path doc)) downloaded_files));
         ("metadata",
          JObj [ ("bucket", JStr bucket_name);
                 ("endpoint", JStr minio_endpoint);
                 ("file_count", JInt (Z.of_nat (List.length downloaded_files)));
                 ("details", JList (map details_json downloaded_files)) ]) ].

Record ProviderRun : Type := {
  final : ProviderState;
  (** the path and the value of the one [json.dump] *)
  written : string * json
}.

(** The directory [download_dir] is taken to exist or to be creatable
    ([os.makedirs(download_dir, exist_ok=True)] returns), and listing the
    bucket to succeed. *)
Definition s3_document_provider (w : World)
    (output_path bucket_name minio_endpoint minio_access_key
     minio_secret_key file_prefix : string)
    (file_extensions : list string) (max_files : Z) (download_dir : string)
  : ProviderRun :=
  let s3 := boto3_client w minio_endpoint minio_access_key minio_secret_key in
  let pages := paginate s3 bucket_name file_prefix in
  let st :=
    page_loop s3 bucket_name download_dir file_extensions max_files pages
              {| downloaded_files := []; file_count := 0; visited := [] |} in
  {| final := st;
     written :=
       (output_path,
        bucket_manifest bucket_name minio_endpoint (downloaded_files st)) |}.

(* ================================================================== *)
(** ** The local-files Provider: the [use_local_files] branch of
       [run_local_pipeline] *)

Definition local_manifest (local_files_dir : string)
    (document_paths : list string) : json :=
  JObj [ ("document_paths", JList (map JStr document_paths));
         ("metadata",
          JObj [ ("source", JStr "local_files");
                 ("file_count", JInt (Z.of_nat (List.length document_paths)));
                 ("directory", JStr local_files_dir) ]) ].

(** Lines 78-98 of [local_pipeline_runner.py]: the value written to
    [document_provider_output], or the [ValueError] raised when
    [local_files_dir] is [None] or empty.  The extensions are taken to
    give patterns [Path.glob] accepts. *)
Definition local_files_provider (w : World) (file_extensions : list string)
    (local_files_dir : option string) : Outcome json :=
  match local_files_dir with
  | None =>
      Raised "local_files_dir must be provided when use_local_files=True"
  | Some dir =>
      if String.eqb dir "" then
        Raised "local_files_dir must be provided when use_local_files=True"
      else
        let local_files :=
          flat_map (fun ext => glob w dir ("*" ++ ext)) file_extensions in
        Returned (local_manifest dir local_files)
  end.


(* ================================================================== *)
(** ** The local driver: [run_local_pipeline] *)

(** The value [json.dump(processing_metrics, f)] writes: the keys in the
    order the Processor adds them to the dict. *)
Definition status_json (st : CallStatus) : json :=
  match st with
  | Success => JStr "success"
  | Failed error_message =>
      JObj [("status", JStr "failed"); ("error", JStr error_message)]
  end.

Definition metrics_json (m : ProcessingMetrics) : json :=
  JObj [ ("document_count", JInt (Z.of_nat (document_count m)));
         ("processed_documents",
          JList (map (fun e => JObj [ ("file", p_file e);
                                      ("chunks", JInt (Z.of_nat (p_chunks e))) ])
                     (m_processed_documents m)));
         ("failed_documents",
          JList (map (fun e => JObj [ ("file", f_file e);
                                      ("error", JStr (f_error e)) ])
                     (m_failed_documents m)));
         ("total_chunks", JInt (Z.of_nat (total_chunks m)));
         ("vector_db_registration", status_json (vector_db_registration m));
         ("vector_db_insertion", status_json (vector_db_insertion m)) ].

(** The world after [json.dump(data, f)] on the file at [path]: the path
    names a file, and [json.load] on it gives [data] back. *)
Definition write_json (w : World) (path : string) (data : json) : World :=
  {| isfile := fun p => if String.eqb p path then true else isfile w p;
     json_load := fun p =>
       if String.eqb p path then Some data else json_load w p;
     convert_chunk := convert_chunk w;
     LlamaStackClient := LlamaStackClient w;
     boto3_client := boto3_client w;
     glob := glob w |}.

(** What [json.load] finds at [path] once the events have happened:
    the metrics of the last write to that path. *)
Fixpoint metrics_file (path : string) (evs : list Event) : option json :=
  match evs with
  | [] => None
  | WriteMetrics p m :: rest =>
      match metrics_file path rest with
      | Some later => Some later
      | None => if String.eqb p path then Some (metrics_json m) else None
      end
  | _ :: rest => metrics_file path rest
  end.

Record PipelineRun : Type := {
  (** the manifest written to [document_provider_output], if one was *)
  pr_manifest : option (string * json);
  (** the call of the Processor, if it was reached *)
  pr_processor : option Run;
  (** the directory [shutil.rmtree] removed in the [finally] block *)
  pr_removed : option string;
  (** the metrics returned, or the exception that left the function *)
  pr_outcome : Outcome json
}.

(** [temp_dir] is what [tempfile.mkdtemp] returned. *)
Definition run_local_pipeline (w : World) (temp_dir : string)
    (bucket_name minio_endpoint minio_access_key minio_secret_key
     file_prefix : string)
    (file_extensions : list string) (max_files : Z)
    (download_dir : option string)
    (llama_stack_url embedding_model : string) (embedding_dimension : Z)
    (provider_id vector_db_id : string)
    (use_local_files : bool) (local_files_dir : option string)
    (cleanup : bool) : PipelineRun :=
  let download_dir :=
    match download_dir with
    | None => Py.path_join temp_dir "downloads"
    | Some d => d
    end in
  let removed := if cleanup then Some temp_dir else None in
  let document_provider_output :=
    Py.path_join temp_dir "document_provider_output.json" in
  let provided : Outcome json :=
    if use_local_files then
      local_files_provider w file_extensions local_files_dir
    else
      Returned
        (snd (written
                (s3_document_provider w document_provider_output bucket_name
                   minio_endpoint minio_access_key minio_secret_key
                   file_prefix file_extensions max_files download_dir))) in
  match provided with
  | Raised exception =>
      {| pr_manifest := None; pr_processor := None;
         pr_removed := removed; pr_outcome := Raised exception |}
  | Returned manifest =>
      let w' := write_json w document_provider_output manifest in
      let metrics_output := Py.path_join temp_dir "metrics.json" in
      let r :=
        rag_docling_component w' document_provider_output metrics_output
          llama_stack_url embedding_model embedding_dimension provider_id
          vector_db_id in
      {| pr_manifest := Some (document_provider_output, manifest);
         pr_processor := Some r;
         pr_removed := removed;
         pr_outcome :=
           match outcome r with
           | Raised exception => Raised exception
           | Returned _ =>
               match metrics_file metrics_output (events r) with
               | Some metrics => Returned metrics
               | None => Raised "FileNotFoundError"
               end
           end |}
  end.

(** [main] of [run_local_programmatic.py].  [package_dir] is
    [os.path.dirname(os.path.dirname(os.path.abspath(__file__)))]; the
    other arguments of [run_local_pipeline] take their default values. *)
Definition main (w : World) (temp_dir package_dir : string) : PipelineRun :=
  let data_dir :=
    Py.path_join (Py.path_join package_dir "data") "sample_documents" in
  run_local_pipeline w temp_dir
    "local-test-bucket" "http://localhost:9000" "minioadmin" "minioadmin" ""
    [".pdf"] 10 None
    "http://localhost:8321" "all-MiniLM-L6-v2" 384 "pgvector"
    "programmatic-test-db"
    true (Some data_dir) true.

(* ================================================================== *)
(** ** Descriptions used in the statements *)

(** The chunks of a run that pass the label test, in the order they are
    met, each with the document it came from. *)
Definition retained_chunks (w : World) (file_paths : list json)
  : list (Chunk * json) :=
  flat_map
    (fun fp => map (fun c => (c, fp))
                   (filter retained (yielded (convert_chunk w fp))))
    file_paths.

(** Chunk Records for [kept], numbered [start + 1], [start + 2], ... *)
Definition numbered (start : nat) (kept : list (Chunk * json))
  : list LlamaStackDocument :=
  map (fun p => make_document (fst p) (fst (snd p)) (snd (snd p)))
      (combine (seq (S start) (List.length kept)) kept).

(** The entry a document adds to [processed_documents] (at most one). *)
Definition processed_entry (w : World) (fp : json) : list ProcessedEntry :=
  match raised (convert_chunk w fp) with
  | None =>
      [{| p_file := fp;
          p_chunks :=
            List.length (filter retained (yielded (convert_chunk w fp))) |}]
  | Some _ => []
  end.

(** The entry a document adds to [failed_documents] (at most one). *)
Definition failed_entry (w : World) (fp : json) : list FailedEntry :=
  match raised (convert_chunk w fp) with
  | None => []
  | Some msg => [{| f_file := fp; f_error := msg |}]
  end.

(** At least one source item of the chunk is labelled text or paragraph. *)
Definition has_prose_item (chunk : Chunk) : Prop :=
  exists c, In c (doc_items (meta chunk))
            /\ (label c = TEXT \/ label c = PARAGRAPH).

(** The parsed manifest is neither a list nor an object holding
    [document_paths] or [documents]. *)
Definition no_recognized_shape (file_data : json) : Prop :=
  (forall items, file_data <> JList items)
  /\ (forall d, file_data = JObj d ->
        Py.getitem "document_paths" d = None
        /\ Py.getitem "documents" d = None).

Definition is_write (e : Event) : bool :=
  match e with WriteMetrics _ _ => true | _ => false end.

(** The world [w] with a registration call that always returns. *)
Definition registration_succeeds (w : World) : World :=
  {| isfile := isfile w;
     json_load := json_load w;
     convert_chunk := convert_chunk w;
     LlamaStackClient := fun url =>
       {| vector_dbs_register := fun _ _ _ _ => None;
          rag_tool_insert := rag_tool_insert (LlamaStackClient w url) |};
     boto3_client := boto3_client w;
     glob := glob w |}.

(** The [metadata] object of a manifest. *)
Definition metadata_of (manifest : json) : option (list (string * json)) :=
  match manifest with
  | JObj members =>
      match Py.getitem "metadata" members with
      | Some (JObj md) => Some md
      | _ => None
      end
  | _ => None
  end.

(** The keys of an object, in order. *)
Definition keys (members : list (string * json)) : list string :=
  map fst members.

(** The entry recorded for a downloaded object. *)
Definition entry_for (download_dir : string) (obj : S3Object)
  : DownloadedFile :=
  {| file_path := Py.path_join download_dir (Py.basename (Key obj));
     key := Key obj;
     size := Size obj;
     last_modified := LastModified obj |}.

(** [file_count] is the length of [downloaded_files]. *)
Definition counted (st : ProviderState) : Prop :=
  file_count st = Z.of_nat (List.length (downloaded_files st)).

(** The enumeration ended on a successful download: the last key visited
    is the key of the last file recorded. *)
Definition stopped_at_download (st : ProviderState) : Prop :=
  exists files d keys_before,
    downloaded_files st = (files ++ [d])%list
    /\ visited st = (keys_before ++ [key d])%list.

(** The object does not have one of the requested extensions. *)
Definition passed_over (file_extensions : list string) (obj : S3Object)
  : bool :=
  negb (matches_extension file_extensions (Key obj)).

(** The objects of a listing in enumeration order. *)
Definition all_objects (pages : list Page) : list S3Object :=
  flat_map (fun page => match page with Some contents => contents | None => [] end)
           pages.

(** The object has one of the requested extensions and its download
    returns. *)
Definition fetchable (s3 : S3Client) (bucket_name download_dir : string)
    (file_extensions : list string) (obj : S3Object) : bool :=
  matches_extension file_extensions (Key obj)
  && match download_file s3 bucket_name (Key obj)
             (Py.path_join download_dir (Py.basename (Key obj))) with
     | None => true
     | Some _ => false
     end.

(** The objects of the first page that has ['Contents']. *)
Fixpoint first_contents (pages : list Page) : list S3Object :=
  match pages with
  | [] => []
  | None :: rest => first_contents rest
  | Some contents :: _ => contents
  end.

(** The string holds no slash. *)
Fixpoint no_slash (s : string) : bool :=
  match s with
  | EmptyString => true
  | String c rest => negb (Ascii.eqb c "/"%char) && no_slash rest
  end.

(** Every character of the string is an ASCII character. *)
Definition is_ascii (s : string) : bool :=
  forallb (fun c => (nat_of_ascii c <? 128)%nat) (list_ascii_of_string s).

(** Values [len] and [for] do not accept. *)
Definition unsized (v : json) : Prop :=
  match v with
  | JNull | JBool _ | JInt _ | JFloat _ => True
  | JStr _ | JList _ | JObj _ => False
  end.

(** The number of chunks of a document that pass the label test. *)
Definition kept_count (w : World) (fp : json) : nat :=
  List.length (filter retained (yielded (convert_chunk w fp))).

Definition is_insert (e : Event) : bool :=
  match e with Insert _ _ _ => true | _ => false end.

(** Two worlds with the same files, the same parser results and the same
    converter; their remote services may differ. *)
Definition same_documents (w w' : World) : Prop :=
  (forall p, isfile w p = isfile w' p)
  /\ (forall p, json_load w p = json_load w' p)
  /\ (forall fp, convert_chunk w fp = convert_chunk w' fp).

(* ================================================================== *)
(** ** Concrete worlds for the examples *)

Module Sample.

Definition prose (s : string) : Chunk :=
  {| text := s; meta := {| doc_items := [ {| label := TEXT |} ] |} |}.

Definition figure (s : string) : Chunk :=
  {| text := s;
     meta := {| doc_items := [ {| label := PICTURE |}; {| label := CAPTION |} ] |} |}.

(** Registration raises, insertion returns. *)
Definition client : Client :=
  {| vector_dbs_register := fun _ _ _ _ => Some "connection refused";
     rag_tool_insert := fun _ _ _ => None |}.

Definition obj (k : string) : S3Object :=
  {| Key := k; Size := 10; LastModified := "2025-01-01T00:00:00" |}.

(** Five objects on two pages, two of them PDF files; every download
    succeeds. *)
Definition bucket : S3Client :=
  {| paginate := fun _ _ =>
       [ Some [obj "notes.txt"; obj "a.pdf"; obj "img.png"; obj "b.pdf"];
         Some [obj "readme.md"] ];
     download_file := fun _ _ _ => None |}.

(** The same listing; the download of ["a.pdf"] raises. *)
Definition flaky_bucket : S3Client :=
  {| paginate := paginate bucket;
     download_file := fun _ key _ =>
       if String.eqb key "a.pdf" then Some "timed out" else None |}.

(** ["a.pdf"] yields three text chunks and a picture chunk, ["b.pdf"]
    yields one text chunk and then raises, any other document yields one
    text chunk. *)
Definition converter (fp : json) : Conversion :=
  match fp with
  | JStr "a.pdf" =>
      {| yielded := [prose "one"; figure "fig"; prose "two"; prose "three"];
         raised := None |}
  | JStr "b.pdf" =>
      {| yielded := [prose "four"; figure "fig2"]; raised := Some "bad page" |}
  | _ => {| yielded := [prose "five"]; raised := None |}
  end.

(** A world whose only file is ["manifest.json"], with content [data]. *)
Definition world_with (data : option json) : World :=
  {| isfile := fun p => String.eqb p "manifest.json";
     json_load := fun _ => data;
     convert_chunk := converter;
     LlamaStackClient := fun _ => client;
     boto3_client := fun _ _ _ => bucket;
     glob := fun _ pattern =>
       if String.eqb pattern "*.pdf" then ["docs/a.pdf"; "docs/b.pdf"] else [] |}.

Definition flaky_world : World :=
  {| isfile := fun _ => false;
     json_load := fun _ => None;
     convert_chunk := converter;
     LlamaStackClient := fun _ => client;
     boto3_client := fun _ _ _ => flaky_bucket;
     glob := fun _ _ => [] |}.

Definition three_documents : World :=
  world_with
    (Some (JObj [("documents", JList [JStr "a.pdf"; JStr "b.pdf"; JStr "c.pdf"])])).

Definition both_keys : World :=
  world_with
    (Some (JObj [("documents", JList [JStr "b.pdf"]);
                 ("document_paths", JList [JStr "a.pdf"])])).

(** [{"document_paths": 5}] *)
Definition number_for_paths : World :=
  world_with (Some (JObj [("document_paths", JInt 5)])).

Definition run (w : World) (document_path : string) : Run :=
  rag_docling_component w document_path "metrics.json"
    "http://localhost:8321" "all-MiniLM-L6-v2" 384 "pgvector" "pgvector".

Definition paths : list json := [JStr "a.pdf"; JStr "b.pdf"; JStr "c.pdf"].

(** The Chunk Records accumulated over [paths]. *)
Definition inserted : list LlamaStackDocument :=
  llama_documents (document_loop three_documents paths initial_state).

Definition fetch (w : World) (max_files : Z) : ProviderRun :=
  s3_document_provider w "manifest.json" "llama" "http://minio-service:9000"
    "minio" "minio123" "" [".pdf"] max_files "/tmp/documents".

(** Insertion raises, registration returns. *)
Definition full_store : Client :=
  {| vector_dbs_register := fun _ _ _ _ => None;
     rag_tool_insert := fun _ _ _ => Some "disk full" |}.

Definition full_store_world : World :=
  {| isfile := isfile three_documents;
     json_load := json_load three_documents;
     convert_chunk := converter;
     LlamaStackClient := fun _ => full_store;
     boto3_client := fun _ _ _ => bucket;
     glob := glob three_documents |}.

(** Two objects with the same file name under different prefixes. *)
Definition nested_bucket : S3Client :=
  {| paginate := fun _ _ => [ Some [obj "2023/report.pdf"; obj "2024/report.pdf"] ];
     download_file := fun _ _ _ => None |}.

Definition nested_world : World :=
  {| isfile := fun _ => false;
     json_load := fun _ => None;
     convert_chunk := converter;
     LlamaStackClient := fun _ => client;
     boto3_client := fun _ _ _ => nested_bucket;
     glob := fun _ _ => [] |}.

(** [run_local_pipeline] with the default arguments of the source. *)
Definition pipeline (w : World) (max_files : Z) (use_local_files : bool)
    (local_files_dir : option string) (cleanup : bool) : PipelineRun :=
  run_local_pipeline w "/tmp/rag_pipeline_x"
    "local-test-bucket" "http://localhost:9000" "minioadmin" "minioadmin" ""
    [".pdf"] max_files None
    "http://localhost:8321" "all-MiniLM-L6-v2" 384 "pgvector" "test-vector-db"
    use_local_files local_files_dir cleanup.

End Sample.

(* ================================================================== *)
(** ** Properties of the Python helpers *)

Local Open Scope list_scope.

Lemma chars_length (s : string) :
  List.length (Py.chars s) = String.length s.
Proof. induction s as [|c s IH]; simpl; congruence. Qed.

(** [len] is defined exactly when iteration is, and counts its values. *)
Lemma len_iter (v : json) (xs : list json) :
  Py.iter v = Some xs -> Py.len v = Some (List.length xs).
Proof.
  destruct v; simpl; intros H; inversion H; subst; clear H.
  - now rewrite length_map, chars_length.
  - reflexivity.
  - now rewrite length_map.
Qed.

Lemma iter_len (v : json) (n : nat) :
  Py.len v = Some n -> exists xs, Py.iter v = Some xs.
Proof. destruct v; simpl; intros H; inversion H; eauto. Qed.

Lemma str_nat_inj (a b : nat) : Py.str_nat a = Py.str_nat b -> a = b.
Proof.
  unfold Py.str_nat. intros H.
  apply Unsigned.to_uint_inj.
  assert (E : Some (Nat.to_uint a) = Some (Nat.to_uint b)).
  { rewrite <- !NilEmpty.usu. now rewrite H. }
  now inversion E.
Qed.

Lemma doc_id_inj (a b : nat) : doc_id a = doc_id b -> a = b.
Proof.
  unfold doc_id. simpl. intros H. apply str_nat_inj. now inversion H.
Qed.

Lemma label_eqb_eq (a b : DocItemLabel) : label_eqb a b = true <-> a = b.
Proof.
  unfold label_eqb. destruct (DocItemLabel_eq_dec a b); split; congruence.
Qed.

Lemma retained_iff (chunk : Chunk) :
  retained chunk = true <-> has_prose_item chunk.
Proof.
  unfold retained, has_prose_item, label_in. rewrite existsb_exists.
  split; intros [c [Hin Hc]]; exists c; split; trivial.
  - simpl in Hc. rewrite !orb_true_iff, !label_eqb_eq in Hc.
    destruct Hc as [Hc | [Hc | Hc]]; auto; discriminate.
  - simpl. rewrite !orb_true_iff, !label_eqb_eq. tauto.
Qed.

(* ================================================================== *)
(** ** The document loop *)

Lemma numbered_cons (start : nat) (c : Chunk) (fp : json)
    (kept : list (Chunk * json)) :
  numbered start ((c, fp) :: kept)
  = make_document (S start) c fp :: numbered (S start) kept.
Proof. reflexivity. Qed.

Lemma numbered_app (kept kept' : list (Chunk * json)) (start : nat) :
  numbered start (kept ++ kept')
  = numbered start kept ++ numbered (start + List.length kept) kept'.
Proof.
  revert start. induction kept as [|[c fp] kept IH]; intros start.
  - simpl. now rewrite Nat.add_0_r.
  - rewrite <- app_comm_cons, !numbered_cons, IH. simpl.
    now rewrite Nat.add_succ_r.
Qed.

Lemma numbered_length (start : nat) (kept : list (Chunk * json)) :
  List.length (numbered start kept) = List.length kept.
Proof.
  unfold numbered. rewrite length_map, length_combine, length_seq.
  apply Nat.min_id.
Qed.

Lemma numbered_ids (start : nat) (kept : list (Chunk * json)) :
  map document_id (numbered start kept)
  = map doc_id (seq (S start) (List.length kept)).
Proof.
  revert start. induction kept as [|[c fp] kept IH]; intros start.
  - reflexivity.
  - rewrite numbered_cons. simpl. now rewrite IH.
Qed.

(** The [j]-th chunk of [kept] gets the number [start + j + 1]. *)
Lemma numbered_nth (start : nat) (kept : list (Chunk * json)) (j : nat)
    (chunk : Chunk) (fp : json) :
  nth_error kept j = Some (chunk, fp) ->
  nth_error (numbered start kept) j
  = Some (make_document (start + S j) chunk fp).
Proof.
  revert start j. induction kept as [|[c f] kept IH]; intros start j H.
  - destruct j; discriminate.
  - rewrite numbered_cons. destruct j as [|j]; cbn [nth_error] in *.
    + inversion H; subst. now rewrite Nat.add_1_r.
    + rewrite (IH (S start) j H). do 2 f_equal. lia.
Qed.

(** The chunk loop keeps the chunks that pass the label test, in order,
    and advances both counters by their number. *)
Lemma chunk_loop_spec (fp : json) (chunks : list Chunk)
    (i chunk_count : nat) (docs : list LlamaStackDocument) :
  let kept := filter retained chunks in
  chunk_loop fp chunks i chunk_count docs
  = (i + List.length kept, chunk_count + List.length kept,
     docs ++ numbered i (map (fun c => (c, fp)) kept)).
Proof.
  revert i chunk_count docs.
  induction chunks as [|chunk rest IH]; intros i chunk_count docs; simpl.
  - now rewrite !Nat.add_0_r, app_nil_r.
  - destruct (retained chunk) eqn:E; rewrite IH; simpl.
    + rewrite numbered_cons, <- app_assoc, !Nat.add_succ_r. reflexivity.
    + reflexivity.
Qed.

Lemma process_document_spec (w : World) (st : LoopState) (fp : json) :
  let st' := process_document w st fp in
  let kept := retained_chunks w [fp] in
  i st' = i st + List.length kept
  /\ llama_documents st' = llama_documents st ++ numbered (i st) kept
  /\ processed_documents st' = processed_documents st ++ processed_entry w fp
  /\ failed_documents st' = failed_documents st ++ failed_entry w fp.
Proof.
  unfold process_document, retained_chunks, processed_entry, failed_entry.
  simpl flat_map. rewrite app_nil_r, chunk_loop_spec, length_map.
  destruct (raised (convert_chunk w fp)); simpl;
    rewrite ?app_nil_r; repeat split; reflexivity.
Qed.

Lemma retained_chunks_one (w : World) (fp : json) :
  retained_chunks w [fp]
  = map (fun c => (c, fp)) (filter retained (yielded (convert_chunk w fp))).
Proof. unfold retained_chunks. simpl. now rewrite app_nil_r. Qed.

Lemma retained_chunks_cons (w : World) (fp : json) (rest : list json) :
  retained_chunks w (fp :: rest)
  = retained_chunks w [fp] ++ retained_chunks w rest.
Proof. unfold retained_chunks. simpl. now rewrite app_nil_r. Qed.

(** What the document loop has done when it ends. *)
Lemma document_loop_spec (w : World) (file_paths : list json) (st : LoopState) :
  let st' := document_loop w file_paths st in
  let kept := retained_chunks w file_paths in
  i st' = i st + List.length kept
  /\ llama_documents st' = llama_documents st ++ numbered (i st) kept
  /\ processed_documents st'
     = processed_documents st ++ flat_map (processed_entry w) file_paths
  /\ failed_documents st'
     = failed_documents st ++ flat_map (failed_entry w) file_paths.
Proof.
  revert st. induction file_paths as [|fp rest IH]; intros st.
  - simpl. rewrite Nat.add_0_r, !app_nil_r. auto.
  - unfold document_loop in *. simpl fold_left.
    destruct (IH (process_document w st fp)) as (Hi & Hd & Hp & Hf).
    destruct (process_document_spec w st fp) as (Hi1 & Hd1 & Hp1 & Hf1).
    cbv zeta in *.
    rewrite retained_chunks_cons, Hi, Hd, Hp, Hf, Hi1, Hd1, Hp1, Hf1.
    rewrite numbered_app, length_app, <- !app_assoc, Nat.add_assoc.
    simpl flat_map. auto.
Qed.

Lemma entries_length (w : World) (file_paths : list json) :
  List.length (flat_map (processed_entry w) file_paths)
  + List.length (flat_map (failed_entry w) file_paths)
  = List.length file_paths.
Proof.
  induction file_paths as [|fp rest IH]; simpl; trivial.
  rewrite !length_app. unfold processed_entry at 1, failed_entry at 1.
  destruct (raised (convert_chunk w fp)); simpl; lia.
Qed.

(** A run whose document value can be iterated goes through the three
    closing steps, in order, and returns. *)
Lemma run_of_iterable (w : World)
    (document_path metrics_path llama_stack_url embedding_model : string)
    (embedding_dimension : Z) (provider_id vector_db_id : string)
    (file_paths : list json) :
  Py.iter (resolve_documents w document_path) = Some file_paths ->
  rag_docling_component w document_path metrics_path llama_stack_url
    embedding_model embedding_dimension provider_id vector_db_id
  = report (LlamaStackClient w llama_stack_url) metrics_path embedding_model
      embedding_dimension provider_id vector_db_id
      (List.length file_paths) (document_loop w file_paths initial_state).
Proof.
  intros H. unfold rag_docling_component.
  rewrite (len_iter _ _ H), H. reflexivity.
Qed.

(** A run whose document value has no length raises at once. *)
Lemma run_of_unsized (w : World)
    (document_path metrics_path llama_stack_url embedding_model : string)
    (embedding_dimension : Z) (provider_id vector_db_id : string) :
  Py.len (resolve_documents w document_path) = None ->
  rag_docling_component w document_path metrics_path llama_stack_url
    embedding_model embedding_dimension provider_id vector_db_id
  = {| events := []; outcome := Raised "TypeError" |}.
Proof.
  intros H. unfold rag_docling_component. now rewrite H.
Qed.

(** Every run either goes through the document loop and the three closing
    steps, or raises at [len(documents)]. *)
Lemma run_cases (w : World)
    (document_path metrics_path llama_stack_url embedding_model : string)
    (embedding_dimension : Z) (provider_id vector_db_id : string) :
  let r := rag_docling_component w document_path metrics_path llama_stack_url
             embedding_model embedding_dimension provider_id vector_db_id in
  (exists file_paths,
      Py.iter (resolve_documents w document_path) = Some file_paths
      /\ r = report (LlamaStackClient w llama_stack_url) metrics_path
               embedding_model embedding_dimension provider_id vector_db_id
               (List.length file_paths)
               (document_loop w file_paths initial_state))
  \/ r = {| events := []; outcome := Raised "TypeError" |}.
Proof.
  cbv zeta.
  destruct (Py.len (resolve_documents w document_path)) as [n|] eqn:E.
  - left. destruct (iter_len _ _ E) as [xs Hxs]. exists xs. split; trivial.
    now apply run_of_iterable.
  - right. now apply run_of_unsized.
Qed.

Lemma loop_documents (w : World) (file_paths : list json) :
  llama_documents (document_loop w file_paths initial_state)
  = numbered 0 (retained_chunks w file_paths).
Proof.
  destruct (document_loop_spec w file_paths initial_state) as (_ & H & _).
  exact H.
Qed.

Lemma retained_by_labels (chunk : Chunk) :
  retained chunk
  = existsb (fun l => label_in l [TEXT; PARAGRAPH])
            (map label (doc_items (meta chunk))).
Proof.
  unfold retained.
  induction (doc_items (meta chunk)) as [|c cs IH]; cbn [existsb map].
  - reflexivity.
  - now rewrite IH.
Qed.

Lemma script_chunk_loop_spec (fp : json) (chunks : list Chunk)
    (i : nat) (docs : list LlamaStackDocument) :
  let kept := filter retained chunks in
  script_chunk_loop fp chunks i docs
  = (i + List.length kept,
     docs ++ numbered i (map (fun c => (c, fp)) kept)).
Proof.
  revert i docs.
  induction chunks as [|chunk rest IH]; intros i docs; simpl.
  - now rewrite Nat.add_0_r, app_nil_r.
  - destruct (retained chunk) eqn:E; rewrite IH; simpl.
    + rewrite numbered_cons, <- app_assoc, !Nat.add_succ_r. reflexivity.
    + reflexivity.
Qed.

Lemma script_loop_spec (w : World) (documents : list json)
    (st : nat * list LlamaStackDocument) :
  fold_left (script_process_document w) documents st
  = (fst st + List.length (retained_chunks w documents),
     snd st ++ numbered (fst st) (retained_chunks w documents)).
Proof.
  revert st. induction documents as [|fp rest IH]; intros [i docs].
  - simpl. now rewrite Nat.add_0_r, app_nil_r.
  - simpl fold_left. rewrite IH. unfold script_process_document.
    rewrite script_chunk_loop_spec. cbv zeta. simpl fst. simpl snd.
    rewrite retained_chunks_cons, numbered_app, length_app.
    rewrite retained_chunks_one, length_map, <- app_assoc, Nat.add_assoc.
    reflexivity.
Qed.

(* ================================================================== *)
(** ** The Processor: claims about one run *)

Section ProcessorRun.

Variable w : World.
Variables document_path metrics_path llama_stack_url embedding_model : string.
Variable embedding_dimension : Z.
Variables provider_id vector_db_id : string.

Local Notation the_run :=
  (rag_docling_component w document_path metrics_path llama_stack_url
     embedding_model embedding_dimension provider_id vector_db_id).

Local Notation registration :=
  (Register vector_db_id embedding_model embedding_dimension provider_id).

(** C1. When the resolved document value iterates to the [N] documents
    [file_paths], the run writes metrics with [document_count = N] and
    [len(processed_documents) + len(failed_documents) = N]: going through
    the documents in order, each one adds exactly one entry, to
    [processed_documents] (with its number of retained chunks) when its
    conversion and chunking end without an exception, and to
    [failed_documents] (with the message) when an exception is raised. *)
Theorem metrics_account_for_every_document (file_paths : list json) :
  Py.iter (resolve_documents w document_path) = Some file_paths ->
  exists docs metrics,
    the_run
    = {| events := [ registration;
                     Insert docs vector_db_id 512;
                     WriteMetrics metrics_path metrics ];
         outcome := Returned (List.length docs) |}
    /\ document_count metrics = List.length file_paths
    /\ List.length (m_processed_documents metrics)
       + List.length (m_failed_documents metrics)
       = List.length file_paths
    /\ m_processed_documents metrics = flat_map (processed_entry w) file_paths
    /\ m_failed_documents metrics = flat_map (failed_entry w) file_paths
    /\ (forall fp,
          (raised (convert_chunk w fp) = None ->
             failed_entry w fp = []
             /\ exists n, processed_entry w fp
                          = [{| p_file := fp; p_chunks := n |}])
          /\ (forall msg, raised (convert_chunk w fp) = Some msg ->
                processed_entry w fp = []
                /\ failed_entry w fp
                   = [{| f_file := fp; f_error := msg |}])).
Proof.
  intros Hiter.
  destruct (document_loop_spec w file_paths initial_state)
    as (_ & _ & Hp & Hf).
  cbv zeta in Hp, Hf. simpl in Hp, Hf.
  eexists. eexists. split.
  { rewrite (run_of_iterable _ _ _ _ _ _ _ _ _ Hiter). reflexivity. }
  cbn [document_count m_processed_documents m_failed_documents].
  rewrite Hp, Hf. repeat split.
  - apply entries_length.
  - unfold failed_entry. now rewrite H.
  - unfold processed_entry. rewrite H. eauto.
  - unfold processed_entry. now rewrite H.
  - unfold failed_entry. now rewrite H.
Qed.

(** C2. A chunk delivered by the chunker becomes a Chunk Record exactly
    when one of its source items is labelled text or paragraph, and the
    test looks at nothing but the labels of the chunk's items.  In a run
    over [file_paths] the inserted list consists of the records of the
    chunks that pass the test, in order, and [total_chunks] and the
    returned value count those chunks only.  The stand-alone script
    inserts the same list. *)
Theorem only_prose_chunks_are_retained (file_paths : list json) :
  Py.iter (resolve_documents w document_path) = Some file_paths ->
  (forall chunk, retained chunk = true <-> has_prose_item chunk)
  /\ (forall c c',
        map label (doc_items (meta c)) = map label (doc_items (meta c')) ->
        retained c = retained c')
  /\ (forall fp chunks i chunk_count docs,
        chunk_loop fp chunks i chunk_count docs
        = (i + List.length (filter retained chunks),
           chunk_count + List.length (filter retained chunks),
           docs ++ numbered i (map (fun c => (c, fp))
                                   (filter retained chunks))))
  /\ (exists metrics,
        the_run
        = {| events :=
               [ registration;
                 Insert (numbered 0 (retained_chunks w file_paths))
                        vector_db_id 512;
                 WriteMetrics metrics_path metrics ];
             outcome :=
               Returned (List.length (retained_chunks w file_paths)) |}
        /\ total_chunks metrics
           = List.length (retained_chunks w file_paths))
  /\ process_documents_to_vectordb w llama_stack_url file_paths
       embedding_model embedding_dimension provider_id vector_db_id
     = {| events :=
            [ registration;
              Insert (numbered 0 (retained_chunks w file_paths))
                     vector_db_id 512 ];
          outcome :=
            Returned (List.length (retained_chunks w file_paths)) |}.
Proof.
  intros Hiter. split; [exact retained_iff|]. split.
  { intros c c' H. now rewrite !retained_by_labels, H. }
  split; [exact chunk_loop_spec|]. split.
  - eexists. split.
    + rewrite (run_of_iterable _ _ _ _ _ _ _ _ _ Hiter). unfold report.
      rewrite loop_documents, numbered_length. reflexivity.
    + cbn [total_chunks]. reflexivity.
  - unfold process_documents_to_vectordb.
    rewrite script_loop_spec. cbn [fst snd app].
    rewrite numbered_length. reflexivity.
Qed.

(** C3. In every run the list handed to the insertion call is the list
    of the retained chunks of all documents, in the order they were
    retained, and the [j]-th of them (from 0) has become the record with
    id ["doc-(j+1)"], its text and its document: the counter runs on from
    one document to the next and through documents that fail.  So the
    ids are ["doc-1"], ["doc-2"], ..., pairwise distinct, and their
    numbers strictly increase. *)
Theorem document_ids_are_sequential (docs : list LlamaStackDocument)
    (vid : string) (tokens : Z) :
  In (Insert docs vid tokens) (events the_run) ->
  (exists file_paths,
      Py.iter (resolve_documents w document_path) = Some file_paths
      /\ docs = numbered 0 (retained_chunks w file_paths)
      /\ List.length docs = List.length (retained_chunks w file_paths)
      /\ (forall j chunk fp,
            nth_error (retained_chunks w file_paths) j = Some (chunk, fp) ->
            nth_error docs j = Some (make_document (S j) chunk fp)))
  /\ (doc_id 1 = "doc-1"%string /\ doc_id 2 = "doc-2"%string
      /\ doc_id 10 = "doc-10"%string)
  /\ map document_id docs = map doc_id (seq 1 (List.length docs))
  /\ (forall j d, nth_error docs j = Some d -> document_id d = doc_id (S j))
  /\ NoDup (map document_id docs)
  /\ (forall j k dj dk,
        j < k -> nth_error docs j = Some dj -> nth_error docs k = Some dk ->
        exists a b, document_id dj = doc_id a /\ document_id dk = doc_id b
                    /\ a < b).
Proof.
  intros Hin.
  assert (Hdocs : exists file_paths,
             Py.iter (resolve_documents w document_path) = Some file_paths
             /\ docs = numbered 0 (retained_chunks w file_paths)).
  { destruct (run_cases w document_path metrics_path llama_stack_url
                embedding_model embedding_dimension provider_id vector_db_id)
      as [[file_paths [Hiter Hrun]] | Hrun]; cbv zeta in Hrun;
      rewrite Hrun in Hin; simpl in Hin.
    - destruct Hin as [H | [H | [H | []]]]; try discriminate.
      inversion H; subst. exists file_paths. split; [exact Hiter|].
      apply loop_documents.
    - contradiction. }
  destruct Hdocs as (file_paths & Hiter & Hdocs).
  assert (Hids : map document_id docs = map doc_id (seq 1 (List.length docs))).
  { rewrite Hdocs. now rewrite numbered_ids, numbered_length. }
  assert (Hnth : forall j d, nth_error docs j = Some d ->
                             document_id d = doc_id (S j)).
  { intros j d Hj.
    pose proof (map_nth_error document_id j docs Hj) as Hm.
    rewrite Hids, nth_error_map, nth_error_seq in Hm.
    destruct (j <? List.length docs)%nat; simpl in Hm; congruence. }
  split.
  { exists file_paths. split; [exact Hiter|]. split; [exact Hdocs|].
    split; [rewrite Hdocs; apply numbered_length|].
    intros j chunk fp Hj. rewrite Hdocs.
    now rewrite (numbered_nth 0 _ j chunk fp Hj). }
  split; [repeat split|].
  split; [exact Hids|]. split; [exact Hnth|]. split.
  - rewrite Hids. apply NoDup_map_NoDup_ForallPairs.
    + intros a b _ _. apply doc_id_inj.
    + apply seq_NoDup.
  - intros j k dj dk Hlt Hj Hk. exists (S j), (S k).
    repeat split; auto. lia.
Qed.

(** C4. When the registration call is made and raises [err], the metrics
    record the failure under [vector_db_registration], the insertion call
    follows with the whole accumulated list, the metrics are written and
    the run returns.  The inserted list is the one the same run inserts in
    a world where the registration call returns. *)
Theorem insertion_follows_failed_registration (err : string) :
  In registration (events the_run) ->
  vector_dbs_register (LlamaStackClient w llama_stack_url) vector_db_id
    embedding_model embedding_dimension provider_id = Some err ->
  exists file_paths docs metrics,
    Py.iter (resolve_documents w document_path) = Some file_paths
    /\ docs = llama_documents (document_loop w file_paths initial_state)
    /\ the_run
       = {| events := [ registration;
                        Insert docs vector_db_id 512;
                        WriteMetrics metrics_path metrics ];
            outcome := Returned (List.length docs) |}
    /\ vector_db_registration metrics = Failed err
    /\ exists metrics',
         rag_docling_component (registration_succeeds w) document_path
           metrics_path llama_stack_url embedding_model embedding_dimension
           provider_id vector_db_id
         = {| events := [ registration;
                          Insert docs vector_db_id 512;
                          WriteMetrics metrics_path metrics' ];
              outcome := Returned (List.length docs) |}
         /\ vector_db_registration metrics' = Success.
Proof.
  intros Hin Herr.
  destruct (run_cases w document_path metrics_path llama_stack_url
              embedding_model embedding_dimension provider_id vector_db_id)
    as [[file_paths [Hiter Hrun]] | Hrun]; cbv zeta in Hrun.
  - exists file_paths. eexists. eexists.
    split; [exact Hiter|]. split; [reflexivity|]. split.
    + rewrite Hrun. reflexivity.
    + split.
      * cbn [vector_db_registration]. now rewrite Herr.
      * eexists. split.
        -- assert (H' : Py.iter (resolve_documents (registration_succeeds w)
                                   document_path) = Some file_paths)
             by exact Hiter.
           rewrite (run_of_iterable _ _ _ _ _ _ _ _ _ H'). reflexivity.
        -- reflexivity.
  - rewrite Hrun in Hin. contradiction.
Qed.

(** C6, as amended.  When the resolved document value can be iterated,
    then whatever the registration and insertion calls do, the run makes
    the two calls, writes the metrics exactly once, as its last step, to
    [metrics_path], and returns the number of accumulated Chunk Records,
    which is also [total_chunks] in the metrics; the two call outcomes are
    recorded in the metrics. *)
Theorem metrics_written_once_total_returned (file_paths : list json) :
  Py.iter (resolve_documents w document_path) = Some file_paths ->
  exists metrics,
    let docs := llama_documents (document_loop w file_paths initial_state) in
    let client := LlamaStackClient w llama_stack_url in
    the_run
    = {| events := [ registration;
                     Insert docs vector_db_id 512;
                     WriteMetrics metrics_path metrics ];
         outcome := Returned (List.length docs) |}
    /\ List.length (filter is_write (events the_run)) = 1
    /\ total_chunks metrics = List.length docs
    /\ vector_db_registration metrics
       = status_of (vector_dbs_register client vector_db_id embedding_model
                      embedding_dimension provider_id)
    /\ vector_db_insertion metrics
       = status_of (rag_tool_insert client docs vector_db_id 512).
Proof.
  intros Hiter. eexists. cbv zeta.
  rewrite (run_of_iterable _ _ _ _ _ _ _ _ _ Hiter).
  split; [reflexivity|]. repeat split.
Qed.

(** C9. For an input path that does not name an existing file the
    document list is empty: no document is converted, the registration
    call and the insertion call with the empty list are made, the metrics
    written show [document_count = 0], empty [processed_documents] and
    [failed_documents] and [total_chunks = 0], and the run returns 0. *)
Theorem missing_input_is_an_empty_run :
  isfile w document_path = false ->
  let client := LlamaStackClient w llama_stack_url in
  resolve_documents w document_path = JList []
  /\ the_run
     = {| events :=
            [ registration;
              Insert [] vector_db_id 512;
              WriteMetrics metrics_path
                {| document_count := 0;
                   m_processed_documents := [];
                   m_failed_documents := [];
                   total_chunks := 0;
                   vector_db_registration :=
                     status_of (vector_dbs_register client vector_db_id
                                  embedding_model embedding_dimension
                                  provider_id);
                   vector_db_insertion :=
                     status_of (rag_tool_insert client [] vector_db_id 512) |} ];
          outcome := Returned 0 |}.
Proof.
  intros Hfile. cbv zeta.
  assert (H : resolve_documents w document_path = JList []).
  { unfold resolve_documents. now rewrite Hfile. }
  split; [exact H|].
  unfold rag_docling_component. rewrite H. reflexivity.
Qed.

(** C10. When the manifest parses to an object that holds both
    [document_paths] and [documents], the document list is the value
    under [document_paths], whatever [documents] holds. *)
Theorem document_paths_wins_over_documents
    (file_data : list (string * json)) (paths others : json) :
  isfile w document_path = true ->
  Py.endswith document_path ".json" = true ->
  json_load w document_path = Some (JObj file_data) ->
  Py.getitem "document_paths" file_data = Some paths ->
  Py.getitem "documents" file_data = Some others ->
  resolve_documents w document_path = paths.
Proof.
  intros Hfile Hext Hload Hpaths _.
  unfold resolve_documents. now rewrite Hfile, Hext, Hload, Hpaths.
Qed.

End ProcessorRun.

(** C7, as amended.  For an input path that names an existing file whose
    name ends in [.json]: a parsed bare list is the document list; a
    parsed object with [document_paths] gives the value under that key; a
    parsed object without [document_paths] but with [documents] gives the
    value under [documents]; when parsing fails with
    [json.JSONDecodeError], or the parsed value has none of the three
    shapes, the document list is the input path alone; any other
    exception raised while the file is read and parsed is not caught and
    leaves the Processor.  An existing file with another name is the
    single document and is not read.  On the worlds of [World], where
    reading ends with a value or [json.JSONDecodeError],
    [resolve_documents] is this function. *)
Theorem manifest_fallback_only_on_decode_error (document_path : string)
    (loaded : Loaded) :
  let documents := resolve_loaded true document_path loaded in
  (Py.endswith document_path ".json" = true ->
     (forall items,
        loaded = Parsed (JList items) -> documents = Returned (JList items))
     /\ (forall d v,
           loaded = Parsed (JObj d) ->
           Py.getitem "document_paths" d = Some v -> documents = Returned v)
     /\ (forall d v,
           loaded = Parsed (JObj d) ->
           Py.getitem "document_paths" d = None ->
           Py.getitem "documents" d = Some v -> documents = Returned v)
     /\ (loaded = DecodeError ->
           documents = Returned (JList [JStr document_path]))
     /\ (forall file_data,
           loaded = Parsed file_data ->
           no_recognized_shape file_data ->
           documents = Returned (JList [JStr document_path]))
     /\ (forall exception,
           loaded = OtherError exception -> documents = Raised exception))
  /\ (Py.endswith document_path ".json" = false ->
        documents = Returned (JList [JStr document_path]))
  /\ (forall w,
        resolve_loaded (isfile w document_path) document_path
          (loaded_of (json_load w document_path))
        = Returned (resolve_documents w document_path)).
Proof.
  cbv zeta. unfold resolve_loaded. split; [|split].
  - intros Hext. rewrite Hext. repeat split.
    + intros items ->. reflexivity.
    + intros d v -> Hk. now rewrite Hk.
    + intros d v -> Hk Hk'. now rewrite Hk, Hk'.
    + intros ->. reflexivity.
    + intros file_data -> [Hlist Hobj].
      destruct file_data; try reflexivity.
      * now destruct (Hlist items).
      * destruct (Hobj members eq_refl) as [H1 H2]. now rewrite H1, H2.
    + intros exception ->. reflexivity.
  - intros Hext. now rewrite Hext.
  - intros w. unfold resolve_documents.
    destruct (isfile w document_path); [|reflexivity].
    destruct (Py.endswith document_path ".json"); [|reflexivity].
    destruct (json_load w document_path) as [[| | | | | |file_data]|];
      try reflexivity.
    cbn [loaded_of].
    destruct (Py.getitem "document_paths" file_data); [reflexivity|].
    destruct (Py.getitem "documents" file_data); reflexivity.
Qed.

(** C7, as stated, fails.  An existing [.json] file whose bytes are not
    valid UTF-8 ([UnicodeDecodeError]), or that holds an integer with too
    many digits ([ValueError]), is not treated as the single document:
    the exception leaves the Processor. *)
Lemma other_read_errors_are_not_recovered :
  resolve_loaded true "manifest.json" (OtherError "UnicodeDecodeError")
  = Raised "UnicodeDecodeError"
  /\ resolve_loaded true "manifest.json" (OtherError "ValueError")
     = Raised "ValueError"
  /\ resolve_loaded true "manifest.json" (OtherError "ValueError")
     <> Returned (JList [JStr "manifest.json"]).
Proof. repeat split. discriminate. Qed.

(* ================================================================== *)
(** ** The bucket Provider: the enumeration and its cap *)

Section Cap.

Variable s3 : S3Client.
Variables bucket_name download_dir : string.
Variable file_extensions : list string.
Variable max_files : Z.

Local Notation objects := (object_loop s3 bucket_name download_dir
                             file_extensions max_files).
Local Notation pages_loop := (page_loop s3 bucket_name download_dir
                                file_extensions max_files).

(** Below the cap, going through two lists of objects one after the other
    is going through their concatenation, with the check between them. *)
Lemma object_loop_app (objs objs' : list S3Object) (st : ProviderState) :
  (file_count st < max_files)%Z ->
  objects (objs ++ objs') st
  = if (max_files <=? file_count (objects objs st))%Z
    then objects objs st
    else objects objs' (objects objs st).
Proof.
  revert st. induction objs as [|obj rest IH]; intros st Hlt.
  - simpl. destruct (Z.leb_spec max_files (file_count st)); [lia|reflexivity].
  - simpl.
    destruct (matches_extension file_extensions (Key obj)); simpl.
    + destruct (download_file s3 bucket_name (Key obj) _); simpl.
      * now apply IH.
      * destruct (Z.leb_spec max_files (file_count st + 1)) as [Hge|Hlt'].
        -- simpl. destruct (Z.leb_spec max_files (file_count st + 1));
             [reflexivity|lia].
        -- now apply IH.
    + now apply IH.
Qed.

(** Below the cap, pagination does not matter: the page loop is the
    object loop over the whole listing. *)
Lemma page_loop_flat (pages : list Page) (st : ProviderState) :
  (file_count st < max_files)%Z ->
  pages_loop pages st = objects (all_objects pages) st.
Proof.
  revert st. induction pages as [|[contents|] rest IH]; intros st Hlt.
  - reflexivity.
  - simpl. rewrite object_loop_app by exact Hlt.
    destruct (Z.leb_spec max_files (file_count (objects contents st)));
      [reflexivity|]. now apply IH.
  - simpl. now apply IH.
Qed.

(** What one pass over a list of objects can do, starting below the cap. *)
Lemma object_loop_spec (objs : list S3Object) (st : ProviderState) :
  (file_count st < max_files)%Z ->
  counted st ->
  let st' := objects objs st in
  counted st'
  /\ (file_count st' <= max_files)%Z
  /\ (exists n, visited st' = visited st ++ map Key (firstn n objs))
  /\ ((file_count st' < max_files)%Z ->
        visited st' = visited st ++ map Key objs)
  /\ (file_count st' = max_files -> stopped_at_download st').
Proof.
  revert st. induction objs as [|obj rest IH]; intros st Hlt Hc; cbv zeta.
  - simpl. repeat split; trivial; try lia.
    + exists 0%nat. simpl. now rewrite app_nil_r.
    + now rewrite app_nil_r.
  - simpl.
    set (st1 := {| downloaded_files := downloaded_files st;
                   file_count := file_count st;
                   visited := visited st ++ [Key obj] |}).
    assert (Hskip :
      let st' := objects rest st1 in
      counted st'
      /\ (file_count st' <= max_files)%Z
      /\ (exists n, visited st' = visited st ++ map Key (firstn n (obj :: rest)))
      /\ ((file_count st' < max_files)%Z ->
            visited st' = visited st ++ map Key (obj :: rest))
      /\ (file_count st' = max_files -> stopped_at_download st')).
    { destruct (IH st1 Hlt Hc) as (H1 & H2 & [n H3] & H4 & H5).
      cbv zeta. repeat split; trivial.
      - exists (S n). rewrite H3. simpl. now rewrite <- app_assoc.
      - intros H. rewrite (H4 H). simpl. now rewrite <- app_assoc. }
    destruct (matches_extension file_extensions (Key obj)); simpl;
      [|exact Hskip].
    destruct (download_file s3 bucket_name (Key obj) _); [exact Hskip|].
    set (st2 := {| downloaded_files := _; file_count := _; visited := _ |}).
    assert (Hc2 : counted st2).
    { unfold counted, st2. simpl. rewrite length_app. simpl.
      unfold counted in Hc. lia. }
    destruct (Z.leb_spec max_files (file_count st + 1)) as [Hge|Hlt'].
    + repeat split; trivial.
      * simpl. lia.
      * exists 1%nat. reflexivity.
      * simpl. lia.
      * intros _. eexists. eexists. eexists. split; reflexivity.
    + destruct (IH st2 Hlt' Hc2) as (H1 & H2 & [n H3] & H4 & H5).
      repeat split; trivial.
      * exists (S n). rewrite H3. simpl. now rewrite <- app_assoc.
      * intros H. rewrite (H4 H). simpl. now rewrite <- app_assoc.
Qed.

(** Objects that do not match are visited and passed over; the first
    matching object whose download succeeds ends the enumeration when it
    completes the cap. *)
Lemma object_loop_first_download (skipped : list S3Object) (obj : S3Object)
    (rest : list S3Object) (st : ProviderState) :
  forallb (passed_over file_extensions) skipped = true ->
  matches_extension file_extensions (Key obj) = true ->
  download_file s3 bucket_name (Key obj)
    (Py.path_join download_dir (Py.basename (Key obj))) = None ->
  (max_files <= file_count st + 1)%Z ->
  objects (skipped ++ obj :: rest) st
  = {| downloaded_files := downloaded_files st ++ [entry_for download_dir obj];
       file_count := file_count st + 1;
       visited := visited st ++ map Key (skipped ++ [obj]) |}.
Proof.
  intros Hskip Hmatch Hok Hcap. revert st Hcap.
  induction skipped as [|o skipped IH]; intros st Hcap.
  - simpl. rewrite Hmatch. simpl. rewrite Hok.
    destruct (Z.leb_spec max_files (file_count st + 1)); [reflexivity|lia].
  - simpl in Hskip. apply andb_true_iff in Hskip as [Ho Hrest].
    unfold passed_over in Ho. simpl. rewrite Ho. rewrite (IH Hrest) by exact Hcap. simpl.
    now rewrite <- app_assoc.
Qed.

End Cap.

(** C5, as amended.  With a cap of at least one, the Provider records at
    most [max_files] downloads; the objects it visits are an initial part
    of the listing, pages notwithstanding; when the number of successful
    downloads reaches the cap, the last object visited is the one whose
    download reached it, and when the cap is not reached the whole
    listing is visited.  In particular, with [max_files = 1], when the
    first matching object of the listing downloads successfully, it is
    the one file downloaded and nothing after it is visited. *)
Theorem downloads_stop_at_the_cap (w : World)
    (output_path bucket_name minio_endpoint minio_access_key
     minio_secret_key file_prefix : string)
    (file_extensions : list string) (max_files : Z) (download_dir : string) :
  (1 <= max_files)%Z ->
  let s3 := boto3_client w minio_endpoint minio_access_key minio_secret_key in
  let listing := all_objects (paginate s3 bucket_name file_prefix) in
  let st :=
    final (s3_document_provider w output_path bucket_name minio_endpoint
             minio_access_key minio_secret_key file_prefix file_extensions
             max_files download_dir) in
  (Z.of_nat (List.length (downloaded_files st)) <= max_files)%Z
  /\ (exists n, visited st = map Key (firstn n listing))
  /\ (Z.of_nat (List.length (downloaded_files st)) = max_files ->
        stopped_at_download st)
  /\ ((Z.of_nat (List.length (downloaded_files st)) < max_files)%Z ->
        visited st = map Key listing)
  /\ (forall skipped obj rest,
        max_files = 1%Z ->
        listing = skipped ++ obj :: rest ->
        forallb (passed_over file_extensions) skipped = true ->
        matches_extension file_extensions (Key obj) = true ->
        download_file s3 bucket_name (Key obj)
          (Py.path_join download_dir (Py.basename (Key obj))) = None ->
        downloaded_files st = [entry_for download_dir obj]
        /\ visited st = map Key (skipped ++ [obj])).
Proof.
  intros Hmax. cbv zeta. unfold s3_document_provider. cbn [final].
  set (s3 := boto3_client w minio_endpoint minio_access_key minio_secret_key).
  set (st0 := {| downloaded_files := []; file_count := 0; visited := [] |}).
  assert (Hlt : (file_count st0 < max_files)%Z) by (simpl; lia).
  assert (Hc : counted st0) by reflexivity.
  rewrite page_loop_flat by exact Hlt.
  destruct (object_loop_spec s3 bucket_name download_dir file_extensions
              max_files (all_objects (paginate s3 bucket_name file_prefix))
              st0 Hlt Hc) as (H1 & H2 & H3 & H4 & H5).
  cbv zeta in *. unfold counted in H1. rewrite <- H1.
  split; [exact H2|]. split; [exact H3|]. split; [exact H5|].
  split; [exact H4|].
  intros skipped obj rest Hone Hlist Hskip Hmatch Hok.
  rewrite Hlist,
    (object_loop_first_download _ _ _ _ _ _ _ _ _ Hskip Hmatch Hok)
    by (simpl; lia).
  split; reflexivity.
Qed.

(* ================================================================== *)
(** ** The local-files Provider and the two manifests *)

(** C8, as amended.  Given a non-empty directory, the local-files
    variant writes a manifest with the two top-level keys of the bucket
    manifest, [document_paths] and [metadata].  Its [metadata] holds
    [source], [file_count] and [directory], with [source] equal to
    ["local_files"] and [file_count] the number of paths; the bucket
    manifest's [metadata] holds [bucket], [endpoint], [file_count] and
    [details].  [document_paths] lists, extension by extension, what
    globbing the directory for ["*" + ext] returns. *)
Theorem local_manifest_shape (w : World) (file_extensions : list string)
    (local_files_dir bucket_name minio_endpoint : string)
    (downloaded : list DownloadedFile) :
  local_files_dir <> "" ->
  let paths :=
    flat_map (fun ext => glob w local_files_dir ("*" ++ ext)%string)
             file_extensions in
  exists top md top' md',
    local_files_provider w file_extensions (Some local_files_dir)
    = Returned (JObj top)
    /\ keys top = ["document_paths"; "metadata"]
    /\ Py.getitem "document_paths" top = Some (JList (map JStr paths))
    /\ metadata_of (JObj top) = Some md
    /\ keys md = ["source"; "file_count"; "directory"]
    /\ Py.getitem "source" md = Some (JStr "local_files")
    /\ Py.getitem "file_count" md
       = Some (JInt (Z.of_nat (List.length paths)))
    /\ Py.getitem "directory" md = Some (JStr local_files_dir)
    /\ bucket_manifest bucket_name minio_endpoint downloaded = JObj top'
    /\ keys top' = keys top
    /\ metadata_of (JObj top') = Some md'
    /\ keys md' = ["bucket"; "endpoint"; "file_count"; "details"].
Proof.
  intros Hdir. cbv zeta. unfold local_files_provider.
  destruct (String.eqb_spec local_files_dir "") as [E|_]; [contradiction|].
  unfold local_manifest, bucket_manifest.
  do 4 eexists. repeat split.
Qed.

(* ================================================================== *)
(** ** Runs on the sample worlds *)

(** C5, as stated, fails.  With [max_files = 0] one file is downloaded;
    with [max_files = 1] and two matching objects, when the download of
    the first raises, the second is visited and downloaded. *)
Lemma cap_fails_at_zero_and_on_failed_download :
  map key (downloaded_files (final (Sample.fetch Sample.three_documents 0)))
  = ["a.pdf"]
  /\ visited (final (Sample.fetch Sample.flaky_world 1))
     = ["notes.txt"; "a.pdf"; "img.png"; "b.pdf"]
  /\ map key (downloaded_files (final (Sample.fetch Sample.flaky_world 1)))
     = ["b.pdf"].
Proof. repeat split. Qed.

(** C6, as stated, fails.  For the manifest [{"document_paths": 5}] the
    run raises at [len(documents)]: no metrics are written and nothing is
    returned. *)
Lemma no_metrics_when_documents_has_no_length :
  Sample.run Sample.number_for_paths "manifest.json"
  = {| events := []; outcome := Raised "TypeError" |}
  /\ ~ (exists path metrics total,
          In (WriteMetrics path metrics)
             (events (Sample.run Sample.number_for_paths "manifest.json"))
          /\ outcome (Sample.run Sample.number_for_paths "manifest.json")
             = Returned total).
Proof.
  split; [reflexivity|].
  intros (path & metrics & total & Hin & _). exact Hin.
Qed.

(** C8, as stated, fails.  The local manifest's [metadata] has no
    [details] and the bucket manifest's [metadata] has no [source]. *)
Lemma local_manifest_lacks_details :
  exists manifest md md',
    local_files_provider Sample.three_documents [".pdf"] (Some "docs")
    = Returned manifest
    /\ metadata_of manifest = Some md
    /\ Py.getitem "details" md = None
    /\ metadata_of (snd (written (Sample.fetch Sample.three_documents 1)))
       = Some md'
    /\ Py.getitem "source" md' = None
    /\ keys md <> keys md'.
Proof.
  do 3 eexists. repeat split. discriminate.
Qed.

(** The scenario of the specification: five objects, two of them PDF
    files, a cap of one.  One file is downloaded and the enumeration ends
    on it; ["img.png"], ["b.pdf"] and the second page are never
    visited. *)
Example one_of_two_pdfs :
  final (Sample.fetch Sample.three_documents 1)
  = {| downloaded_files :=
         [{| file_path := "/tmp/documents/a.pdf"; key := "a.pdf";
             size := 10; last_modified := "2025-01-01T00:00:00" |}];
       file_count := 1;
       visited := ["notes.txt"; "a.pdf"] |}.
Proof. reflexivity. Qed.

(** The scenario of the specification: ["a.pdf"] gives three text
    chunks, ["b.pdf"] raises (after one text chunk), ["c.pdf"] gives one
    text chunk.  The ids run on across the three documents. *)
Example three_documents_run :
  exists docs,
    Sample.run Sample.three_documents "manifest.json"
    = {| events :=
           [ Register "pgvector" "all-MiniLM-L6-v2" 384 "pgvector";
             Insert docs "pgvector" 512;
             WriteMetrics "metrics.json"
               {| document_count := 3;
                  m_processed_documents :=
                    [{| p_file := JStr "a.pdf"; p_chunks := 3 |};
                     {| p_file := JStr "c.pdf"; p_chunks := 1 |}];
                  m_failed_documents :=
                    [{| f_file := JStr "b.pdf"; f_error := "bad page" |}];
                  total_chunks := 5;
                  vector_db_registration := Failed "connection refused";
                  vector_db_insertion := Success |} ];
         outcome := Returned 5 |}
    /\ map document_id docs = ["doc-1"; "doc-2"; "doc-3"; "doc-4"; "doc-5"]
    /\ map content docs = ["one"; "two"; "three"; "four"; "five"].
Proof. eexists. repeat split. Qed.

(* ================================================================== *)
(** ** The theorems at the sample worlds *)

Lemma metrics_account_for_every_document_witness :
  Py.iter (resolve_documents Sample.three_documents "manifest.json")
  = Some Sample.paths
  /\ exists docs metrics,
       Sample.run Sample.three_documents "manifest.json"
       = {| events := [ Register "pgvector" "all-MiniLM-L6-v2" 384 "pgvector";
                        Insert docs "pgvector" 512;
                        WriteMetrics "metrics.json" metrics ];
            outcome := Returned (List.length docs) |}
       /\ document_count metrics = 3
       /\ List.length (m_processed_documents metrics)
          + List.length (m_failed_documents metrics) = 3.
Proof.
  split; [reflexivity|].
  destruct (metrics_account_for_every_document Sample.three_documents
              "manifest.json" "metrics.json" "http://localhost:8321"
              "all-MiniLM-L6-v2" 384 "pgvector" "pgvector" Sample.paths
              eq_refl) as (docs & metrics & H1 & H2 & H3 & _).
  exists docs, metrics. auto.
Defined.

Lemma only_prose_chunks_are_retained_witness :
  Py.iter (resolve_documents Sample.three_documents "manifest.json")
  = Some Sample.paths
  /\ retained (Sample.figure "fig") = retained (Sample.figure "fig2")
  /\ process_documents_to_vectordb Sample.three_documents
       "http://localhost:8321" Sample.paths "all-MiniLM-L6-v2" 384
       "pgvector" "pgvector"
     = {| events :=
            [ Register "pgvector" "all-MiniLM-L6-v2" 384 "pgvector";
              Insert (numbered 0 (retained_chunks Sample.three_documents
                                                  Sample.paths))
                     "pgvector" 512 ];
          outcome :=
            Returned (List.length (retained_chunks Sample.three_documents
                                                   Sample.paths)) |}.
Proof.
  split; [reflexivity|].
  destruct (only_prose_chunks_are_retained Sample.three_documents
              "manifest.json" "metrics.json" "http://localhost:8321"
              "all-MiniLM-L6-v2" 384 "pgvector" "pgvector" Sample.paths
              eq_refl) as (_ & Hlabels & _ & _ & Hscript).
  split; [apply Hlabels; reflexivity | exact Hscript].
Defined.

Lemma document_ids_are_sequential_witness :
  In (Insert Sample.inserted "pgvector" 512)
     (events (Sample.run Sample.three_documents "manifest.json"))
  /\ map document_id Sample.inserted
     = map doc_id (seq 1 (List.length Sample.inserted))
  /\ NoDup (map document_id Sample.inserted).
Proof.
  assert (H : In (Insert Sample.inserted "pgvector" 512)
                 (events (Sample.run Sample.three_documents "manifest.json")))
    by (right; left; reflexivity).
  split; [exact H|].
  destruct (document_ids_are_sequential Sample.three_documents
              "manifest.json" "metrics.json" "http://localhost:8321"
              "all-MiniLM-L6-v2" 384 "pgvector" "pgvector"
              Sample.inserted "pgvector" 512 H) as (_ & _ & H1 & _ & H3 & _).
  split; assumption.
Defined.

Lemma insertion_follows_failed_registration_witness :
  In (Register "pgvector" "all-MiniLM-L6-v2" 384 "pgvector")
     (events (Sample.run Sample.three_documents "manifest.json"))
  /\ vector_dbs_register
       (LlamaStackClient Sample.three_documents "http://localhost:8321")
       "pgvector" "all-MiniLM-L6-v2" 384 "pgvector"
     = Some "connection refused"
  /\ exists docs metrics,
       In (Insert docs "pgvector" 512)
          (events (Sample.run Sample.three_documents "manifest.json"))
       /\ In (WriteMetrics "metrics.json" metrics)
             (events (Sample.run Sample.three_documents "manifest.json"))
       /\ vector_db_registration metrics = Failed "connection refused".
Proof.
  assert (H : In (Register "pgvector" "all-MiniLM-L6-v2" 384 "pgvector")
                 (events (Sample.run Sample.three_documents "manifest.json")))
    by (left; reflexivity).
  split; [exact H|]. split; [reflexivity|].
  destruct (insertion_follows_failed_registration Sample.three_documents
              "manifest.json" "metrics.json" "http://localhost:8321"
              "all-MiniLM-L6-v2" 384 "pgvector" "pgvector"
              "connection refused" H eq_refl)
    as (file_paths & docs & metrics & _ & _ & Hrun & Hreg & _).
  exists docs, metrics. unfold Sample.run. rewrite Hrun. cbn [events].
  split; [right; left; reflexivity|].
  split; [right; right; left; reflexivity | exact Hreg].
Defined.

Lemma downloads_stop_at_the_cap_witness :
  (1 <= 1)%Z
  /\ (Z.of_nat (List.length
                  (downloaded_files
                     (final (Sample.fetch Sample.three_documents 1))))
      <= 1)%Z
  /\ exists n,
       visited (final (Sample.fetch Sample.three_documents 1))
       = map Key (firstn n (all_objects (paginate Sample.bucket "llama" ""))).
Proof.
  split; [lia|].
  destruct (downloads_stop_at_the_cap Sample.three_documents "manifest.json"
              "llama" "http://minio-service:9000" "minio" "minio123" ""
              [".pdf"] 1 "/tmp/documents" ltac:(lia)) as (H1 & H2 & _).
  split; assumption.
Defined.

Lemma metrics_written_once_total_returned_witness :
  Py.iter (resolve_documents Sample.three_documents "manifest.json")
  = Some Sample.paths
  /\ List.length
       (filter is_write
               (events (Sample.run Sample.three_documents "manifest.json")))
     = 1
  /\ outcome (Sample.run Sample.three_documents "manifest.json")
     = Returned (List.length Sample.inserted).
Proof.
  split; [reflexivity|].
  destruct (metrics_written_once_total_returned Sample.three_documents
              "manifest.json" "metrics.json" "http://localhost:8321"
              "all-MiniLM-L6-v2" 384 "pgvector" "pgvector" Sample.paths
              eq_refl) as (metrics & Hrun & Hone & _).
  split; [exact Hone|]. unfold Sample.run. rewrite Hrun. reflexivity.
Defined.

Lemma local_manifest_shape_witness :
  "docs" <> ""
  /\ exists top md,
       local_files_provider Sample.three_documents [".pdf"] (Some "docs")
       = Returned (JObj top)
       /\ metadata_of (JObj top) = Some md
       /\ keys md = ["source"; "file_count"; "directory"]
       /\ Py.getitem "source" md = Some (JStr "local_files").
Proof.
  assert (Hdir : "docs" <> "") by discriminate.
  split; [exact Hdir|].
  destruct (local_manifest_shape Sample.three_documents [".pdf"] "docs"
              "llama" "http://minio-service:9000" [] Hdir)
    as (top & md & _ & _ & H1 & _ & _ & H4 & H5 & H6 & _).
  exists top, md. auto.
Defined.

Lemma missing_input_is_an_empty_run_witness :
  isfile Sample.three_documents "missing.pdf" = false
  /\ resolve_documents Sample.three_documents "missing.pdf" = JList []
  /\ outcome (Sample.run Sample.three_documents "missing.pdf") = Returned 0.
Proof.
  split; [reflexivity|].
  destruct (missing_input_is_an_empty_run Sample.three_documents
              "missing.pdf" "metrics.json" "http://localhost:8321"
              "all-MiniLM-L6-v2" 384 "pgvector" "pgvector" eq_refl)
    as [Hdocs Hrun].
  split; [exact Hdocs|]. unfold Sample.run. rewrite Hrun. reflexivity.
Defined.

Lemma document_paths_wins_over_documents_witness :
  isfile Sample.both_keys "manifest.json" = true
  /\ resolve_documents Sample.both_keys "manifest.json"
     = JList [JStr "a.pdf"].
Proof.
  split; [reflexivity|].
  exact (document_paths_wins_over_documents Sample.both_keys "manifest.json"
           [("documents", JList [JStr "b.pdf"]);
            ("document_paths", JList [JStr "a.pdf"])]
           (JList [JStr "a.pdf"]) (JList [JStr "b.pdf"])
           eq_refl eq_refl eq_refl eq_refl eq_refl).
Defined.

(* ================================================================== *)
(** ** Strings: suffixes and letter case *)

Lemma append_length (a b : string) :
  String.length (a ++ b)%string = String.length a + String.length b.
Proof. induction a as [|c a IH]; simpl; congruence. Qed.

Lemma append_assoc (a b c : string) :
  ((a ++ b) ++ c = a ++ (b ++ c))%string.
Proof. induction a as [|x a IH]; simpl; congruence. Qed.

Lemma append_empty_r (a : string) : (a ++ "" = a)%string.
Proof. induction a as [|x a IH]; simpl; congruence. Qed.

Lemma substring_all (s : string) : substring 0 (String.length s) s = s.
Proof. induction s as [|c s IH]; simpl; congruence. Qed.

Lemma substring_after (pre suf : string) :
  substring (String.length pre) (String.length suf) (pre ++ suf)%string = suf.
Proof.
  induction pre as [|c pre IH]; simpl.
  - apply substring_all.
  - exact IH.
Qed.

(** A string is its first [n] characters followed by the rest. *)
Lemma substring_split (n : nat) (s : string) :
  n <= String.length s ->
  s = (substring 0 n s ++ substring n (String.length s - n) s)%string.
Proof.
  revert s. induction n as [|n IH]; intros s Hn.
  - simpl. rewrite Nat.sub_0_r, substring_all.
    destruct s; reflexivity.
  - destruct s as [|c s]; simpl in *; [lia|].
    f_equal. apply IH. lia.
Qed.

(** [s.endswith(suffix)] holds exactly when [s] is some string followed
    by [suffix]. *)
Lemma endswith_iff (s suffix : string) :
  Py.endswith s suffix = true <-> exists pre, s = (pre ++ suffix)%string.
Proof.
  unfold Py.endswith. rewrite andb_true_iff, Nat.leb_le, String.eqb_eq.
  split.
  - intros [Hle Hsub].
    exists (substring 0 (String.length s - String.length suffix) s).
    pose proof (substring_split (String.length s - String.length suffix) s)
      as Hsplit.
    replace (String.length s - (String.length s - String.length suffix))
      with (String.length suffix) in Hsplit by lia.
    rewrite Hsub in Hsplit. apply Hsplit. lia.
  - intros [pre ->]. rewrite append_length. split; [lia|].
    replace (String.length pre + String.length suffix - String.length suffix)
      with (String.length pre) by lia.
    apply substring_after.
Qed.

Lemma lower_length (s : string) :
  String.length (Py.lower s) = String.length s.
Proof. induction s as [|c s IH]; simpl; congruence. Qed.

Lemma lower_append (a b : string) :
  Py.lower (a ++ b) = (Py.lower a ++ Py.lower b)%string.
Proof. induction a as [|c a IH]; simpl; congruence. Qed.

Lemma lower_substring (n m : nat) (s : string) :
  Py.lower (substring n m s) = substring n m (Py.lower s).
Proof.
  revert n m. induction s as [|c s IH]; intros n m.
  - destruct n, m; reflexivity.
  - destruct n as [|n]; simpl.
    + destruct m as [|m]; simpl; [reflexivity|]. now rewrite IH.
    + apply IH.
Qed.

(* ================================================================== *)
(** ** The extension filter *)

(** What the test computes, in terms of [Py.lower]. *)
Lemma matches_extension_iff (file_extensions : list string) (key : string) :
  matches_extension file_extensions key = true
  <-> exists ext name suffix,
        In ext file_extensions
        /\ key = (name ++ suffix)%string
        /\ Py.lower suffix = Py.lower ext.
Proof.
  unfold matches_extension. rewrite existsb_exists. split.
  - intros (ext & Hin & Hend). apply endswith_iff in Hend as [pre Hpre].
    assert (Hlen : String.length key
                   = String.length pre + String.length ext).
    { rewrite <- (lower_length key), Hpre, append_length, lower_length.
      reflexivity. }
    set (n := String.length pre).
    exists ext, (substring 0 n key),
           (substring n (String.length key - n) key).
    split; [exact Hin|]. split.
    + apply substring_split. lia.
    + rewrite lower_substring, Hpre.
      replace (String.length key - n) with (String.length (Py.lower ext))
        by (rewrite lower_length; lia).
      apply substring_after.
  - intros (ext & name & suffix & Hin & -> & Hlow). exists ext.
    split; [exact Hin|]. apply endswith_iff. exists (Py.lower name).
    now rewrite lower_append, Hlow.
Qed.

(** X1. For a key and extensions made of ASCII characters, an object
    passes the extension filter exactly when its key ends, up to the
    case of the letters, with one of the listed extensions. *)
Theorem extension_filter_ignores_case (file_extensions : list string)
    (key : string) :
  is_ascii key = true ->
  forallb is_ascii file_extensions = true ->
  (matches_extension file_extensions key = true
   <-> exists ext name suffix,
         In ext file_extensions
         /\ key = (name ++ suffix)%string
         /\ Py.lower suffix = Py.lower ext).
Proof. intros _ _. apply matches_extension_iff. Qed.

Lemma split_from_trailing (sep : ascii) (acc s : string) :
  In ""%string (Py.split_from sep acc (s ++ String sep "")).
Proof.
  revert acc. induction s as [|c s IH]; intros acc; simpl.
  - rewrite Ascii.eqb_refl. right. left. reflexivity.
  - destruct (Ascii.eqb c sep); [right|]; apply IH.
Qed.

(** X2. An empty extension lets every object through, and an empty
    allow-list lets none through.  The command line splits its
    [--file-extensions] argument at commas, so an empty argument or one
    that ends with a comma makes every object match. *)
Theorem empty_extension_matches_everything (key : string) :
  (forall file_extensions,
      In ""%string file_extensions ->
      matches_extension file_extensions key = true)
  /\ matches_extension [] key = false
  /\ matches_extension (Py.split "," "") key = true
  /\ (forall argument,
        matches_extension (Py.split "," (argument ++ ",")) key = true).
Proof.
  assert (H : forall file_extensions,
             In ""%string file_extensions ->
             matches_extension file_extensions key = true).
  { intros file_extensions Hin. apply matches_extension_iff.
    exists ""%string, key, ""%string. rewrite append_empty_r. auto. }
  split; [exact H|]. split; [reflexivity|]. split.
  - apply H. left. reflexivity.
  - intros argument. apply H. apply split_from_trailing.
Qed.

(* ================================================================== *)
(** ** The bucket Provider: which files are downloaded *)

Section Fetch.

Variable s3 : S3Client.
Variables bucket_name download_dir : string.
Variable file_extensions : list string.
Variable max_files : Z.

Local Notation objects := (object_loop s3 bucket_name download_dir
                             file_extensions max_files).
Local Notation pages_loop := (page_loop s3 bucket_name download_dir
                                file_extensions max_files).
Local Notation good := (fetchable s3 bucket_name download_dir file_extensions).

(** The number of further downloads one pass over a page can make: what
    is missing to the cap, and one when the cap is already reached. *)
Local Notation room st := (Z.to_nat (Z.max 1 (max_files - file_count st))).

Local Arguments fetchable : simpl never.

(** One pass over a list of objects downloads the first [room] objects
    that match and download successfully, and nothing else. *)
Lemma object_loop_fetches (objs : list S3Object) (st : ProviderState) :
  let fetched := firstn (room st) (filter good objs) in
  downloaded_files (objects objs st)
  = downloaded_files st ++ map (entry_for download_dir) fetched
  /\ file_count (objects objs st)
     = (file_count st + Z.of_nat (List.length fetched))%Z.
Proof.
  revert st. induction objs as [|obj rest IH]; intros st; cbv zeta.
  - simpl. rewrite firstn_nil. simpl. rewrite app_nil_r. split; [trivial|lia].
  - simpl.
    set (st1 := {| downloaded_files := downloaded_files st;
                   file_count := file_count st;
                   visited := visited st ++ [Key obj] |}).
    destruct (matches_extension file_extensions (Key obj)) eqn:Em; simpl.
    2: { replace (good obj) with false
           by (unfold fetchable; now rewrite Em).
         exact (IH st1). }
    destruct (download_file s3 bucket_name (Key obj) _) eqn:Ed.
    { replace (good obj) with false
        by (unfold fetchable; now rewrite Em, Ed).
      exact (IH st1). }
    replace (good obj) with true by (unfold fetchable; now rewrite Em, Ed).
    set (st2 := {| downloaded_files := _; file_count := _; visited := _ |}).
    destruct (Z.leb_spec max_files (file_count st + 1)) as [Hge|Hlt].
    + replace (room st) with 1%nat by lia. simpl. split; [reflexivity|lia].
    + destruct (IH st2) as [Hd Hc]. cbv zeta in Hd, Hc.
      replace (room st) with (S (room st2)) by (simpl; lia).
      rewrite Hd, Hc. simpl. rewrite <- app_assoc. simpl.
      split; [reflexivity|lia].
Qed.

(** With a cap of one or more the page loop downloads the first
    [max_files] fetchable objects of the whole listing. *)
Lemma page_loop_fetches (pages : list Page) :
  (1 <= max_files)%Z ->
  let st0 := {| downloaded_files := []; file_count := 0; visited := [] |} in
  let fetched :=
    firstn (Z.to_nat max_files) (filter good (all_objects pages)) in
  downloaded_files (pages_loop pages st0)
  = map (entry_for download_dir) fetched
  /\ file_count (pages_loop pages st0) = Z.of_nat (List.length fetched).
Proof.
  intros Hmax. cbv zeta. rewrite page_loop_flat by (simpl; lia).
  destruct (object_loop_fetches (all_objects pages)
              {| downloaded_files := []; file_count := 0; visited := [] |})
    as [Hd Hc].
  cbv zeta in Hd, Hc. rewrite Hd, Hc. simpl.
  replace (Z.to_nat (Z.max 1 (max_files - 0))) with (Z.to_nat max_files)
    by lia.
  split; reflexivity.
Qed.

(** With the cap already reached the page loop ends after the first page
    that has contents, having downloaded its first fetchable object. *)
Lemma page_loop_without_room (pages : list Page) (st : ProviderState) :
  (max_files <= file_count st)%Z ->
  let fetched := firstn 1 (filter good (first_contents pages)) in
  downloaded_files (pages_loop pages st)
  = downloaded_files st ++ map (entry_for download_dir) fetched
  /\ file_count (pages_loop pages st)
     = (file_count st + Z.of_nat (List.length fetched))%Z.
Proof.
  intros Hmax. cbv zeta. induction pages as [|[contents|] rest IH]; simpl.
  - rewrite app_nil_r. split; [trivial|lia].
  - destruct (object_loop_fetches contents st) as [Hd Hc].
    cbv zeta in Hd, Hc.
    replace (room st) with 1%nat in Hd, Hc by lia.
    destruct (Z.leb_spec max_files (file_count (objects contents st)));
      [split; assumption|lia].
  - exact IH.
Qed.

End Fetch.

Lemma first_contents_listed (pages : list Page) (o : S3Object) :
  In o (first_contents pages) -> In o (all_objects pages).
Proof.
  induction pages as [|[contents|] rest IH]; simpl; intros H.
  - contradiction.
  - apply in_or_app. now left.
  - now apply IH.
Qed.

Lemma firstn_filter_In {A : Type} (f : A -> bool) (n : nat) (l : list A)
    (x : A) :
  In x (firstn n (filter f l)) -> In x l /\ f x = true.
Proof.
  intros H. apply filter_In.
  rewrite <- (firstn_skipn n (filter f l)). apply in_or_app. now left.
Qed.

Lemma basename_from_no_slash (name acc : string) :
  no_slash name = true -> Py.basename_from acc name = (acc ++ name)%string.
Proof.
  revert acc. induction name as [|c name IH]; intros acc H; simpl in *.
  - now rewrite append_empty_r.
  - apply andb_true_iff in H as [Hc Hrest].
    apply negb_true_iff in Hc. rewrite Hc, (IH _ Hrest), append_assoc.
    reflexivity.
Qed.

Lemma basename_from_prefixed (prefix name acc : string) :
  no_slash name = true ->
  Py.basename_from acc (prefix ++ "/" ++ name) = name.
Proof.
  intros H. revert acc.
  induction prefix as [|c prefix IH]; intros acc; simpl.
  - now rewrite basename_from_no_slash.
  - destruct (Ascii.eqb c "/"%char); apply IH.
Qed.

(** The base name of [prefix/name] is [name]. *)
Lemma basename_of_prefixed (prefix name : string) :
  no_slash name = true ->
  Py.basename (prefix ++ "/" ++ name) = name.
Proof. apply basename_from_prefixed. Qed.

Section ProviderRun.

Variable w : World.
Variables output_path bucket_name minio_endpoint minio_access_key
          minio_secret_key file_prefix : string.
Variable file_extensions : list string.
Variable max_files : Z.
Variable download_dir : string.

Local Notation s3 :=
  (boto3_client w minio_endpoint minio_access_key minio_secret_key).
Local Notation listing := (all_objects (paginate s3 bucket_name file_prefix)).
Local Notation good := (fetchable s3 bucket_name download_dir file_extensions).
Local Notation the_fetch :=
  (s3_document_provider w output_path bucket_name minio_endpoint
     minio_access_key minio_secret_key file_prefix file_extensions max_files
     download_dir).

(** X3. With a cap of at least one, the files the Provider downloads are
    exactly the first [max_files] objects of the listing, in listing
    order, that have a requested extension and whose download succeeds;
    their number is the smaller of the cap and the number of such
    objects. *)
Theorem downloads_are_the_first_fetchable :
  (1 <= max_files)%Z ->
  downloaded_files (final the_fetch)
  = map (entry_for download_dir)
        (firstn (Z.to_nat max_files) (filter good listing))
  /\ Z.of_nat (List.length (downloaded_files (final the_fetch)))
     = Z.min max_files (Z.of_nat (List.length (filter good listing))).
Proof.
  intros Hmax. unfold s3_document_provider. cbn [final].
  destruct (page_loop_fetches s3 bucket_name download_dir file_extensions
              max_files (paginate s3 bucket_name file_prefix) Hmax)
    as [Hd _].
  cbv zeta in Hd. rewrite Hd. split; [reflexivity|].
  rewrite length_map.
  pose proof (length_firstn (Z.to_nat max_files) (filter good listing))
    as Hlen.
  rewrite Hlen, Nat2Z.inj_min, Z2Nat.id by lia. reflexivity.
Qed.

(** X4. With a cap of zero or less the Provider still looks at the first
    page that has contents and downloads the first object of that page
    that has a requested extension and downloads successfully; it
    downloads nothing else. *)
Theorem nonpositive_cap_still_downloads_one :
  (max_files <= 0)%Z ->
  downloaded_files (final the_fetch)
  = map (entry_for download_dir)
        (firstn 1 (filter good
                          (first_contents (paginate s3 bucket_name file_prefix))))
  /\ List.length (downloaded_files (final the_fetch)) <= 1.
Proof.
  intros Hmax. unfold s3_document_provider. cbn [final].
  destruct (page_loop_without_room s3 bucket_name download_dir
              file_extensions max_files (paginate s3 bucket_name file_prefix)
              {| downloaded_files := []; file_count := 0; visited := [] |}
              Hmax) as [Hd _].
  cbv zeta in Hd. cbn [downloaded_files app] in Hd. rewrite Hd.
  split; [reflexivity|].
  rewrite length_map.
  pose proof (length_firstn 1
                (filter good
                   (first_contents (paginate s3 bucket_name file_prefix))))
    as Hlen.
  rewrite Hlen. apply Nat.le_min_l.
Qed.

(** The files recorded by any run, whatever the cap. *)
Lemma provider_downloads :
  exists fetched,
    downloaded_files (final the_fetch) = map (entry_for download_dir) fetched
    /\ file_count (final the_fetch) = Z.of_nat (List.length fetched)
    /\ (forall o, In o fetched -> In o listing /\ good o = true).
Proof.
  unfold s3_document_provider. cbn [final].
  destruct (Z_le_gt_dec 1 max_files) as [Hmax|Hmax].
  - destruct (page_loop_fetches s3 bucket_name download_dir file_extensions
                max_files (paginate s3 bucket_name file_prefix) Hmax)
      as [Hd Hc].
    eexists. split; [exact Hd|]. split; [exact Hc|].
    intros o Ho. now apply firstn_filter_In in Ho.
  - destruct (page_loop_without_room s3 bucket_name download_dir
                file_extensions max_files (paginate s3 bucket_name file_prefix)
                {| downloaded_files := []; file_count := 0; visited := [] |})
      as [Hd Hc]; [simpl; lia|].
    eexists. split; [exact Hd|]. split; [exact Hc|].
    intros o Ho. apply firstn_filter_In in Ho as [Hin Hgood].
    split; [now apply first_contents_listed | exact Hgood].
Qed.

(** The same, with the bound on their number. *)
Lemma provider_downloads_bounded :
  exists fetched,
    downloaded_files (final the_fetch) = map (entry_for download_dir) fetched
    /\ (forall o, In o fetched -> In o listing /\ good o = true)
    /\ (Z.of_nat (List.length fetched) <= Z.max 1 max_files)%Z.
Proof.
  unfold s3_document_provider. cbn [final].
  destruct (Z_le_gt_dec 1 max_files) as [Hmax|Hmax].
  - destruct (page_loop_fetches s3 bucket_name download_dir file_extensions
                max_files (paginate s3 bucket_name file_prefix) Hmax)
      as [Hd _].
    eexists. split; [exact Hd|]. split.
    + intros o Ho. now apply firstn_filter_In in Ho.
    + pose proof (length_firstn (Z.to_nat max_files) (filter good listing))
        as Hlen.
      rewrite Hlen. lia.
  - destruct (page_loop_without_room s3 bucket_name download_dir
                file_extensions max_files (paginate s3 bucket_name file_prefix)
                {| downloaded_files := []; file_count := 0; visited := [] |})
      as [Hd _]; [simpl; lia|].
    eexists. split; [exact Hd|]. split.
    + intros o Ho. apply firstn_filter_In in Ho as [Hin Hgood].
      split; [now apply first_contents_listed | exact Hgood].
    + pose proof (length_firstn 1
                    (filter good
                       (first_contents (paginate s3 bucket_name file_prefix))))
        as Hlen.
      rewrite Hlen. lia.
Qed.

(** X5. Whatever the cap, the manifest the Provider writes agrees with
    what it downloaded: [document_paths] holds one path per downloaded
    object, in order, each [download_dir] joined with the base name of
    the key; [file_count] is their number, which is also the value of
    the counter when the enumeration ends; [details] holds one entry per
    path.  Every listed file comes from an object of the listing that has
    a requested extension and whose download succeeded. *)
Theorem manifest_agrees_with_downloads :
  exists fetched,
    (forall o, In o fetched -> In o listing /\ good o = true)
    /\ file_count (final the_fetch) = Z.of_nat (List.length fetched)
    /\ written the_fetch
       = (output_path,
          JObj [ ("document_paths",
                  JList (map (fun o =>
                                JStr (Py.path_join download_dir
                                        (Py.basename (Key o))))
                             fetched));
                 ("metadata",
                  JObj [ ("bucket", JStr bucket_name);
                         ("endpoint", JStr minio_endpoint);
                         ("file_count", JInt (Z.of_nat (List.length fetched)));
                         ("details",
                          JList (map (fun o =>
                                        details_json
                                          (entry_for download_dir o))
                                     fetched)) ]) ]).
Proof.
  destruct provider_downloads as (fetched & Hd & Hc & Hin).
  exists fetched. split; [exact Hin|]. split; [exact Hc|].
  unfold s3_document_provider in *. cbn [final written] in *.
  unfold bucket_manifest. rewrite Hd, !map_map, length_map. reflexivity.
Qed.

(** X6. The local path of a download keeps only the base name of the
    key: two downloaded objects whose keys are [p1/name] and [p2/name]
    are stored at the same path [download_dir/name], which the manifest
    then lists for both. *)
Theorem same_file_name_same_local_path (d1 d2 : DownloadedFile)
    (p1 p2 name : string) :
  In d1 (downloaded_files (final the_fetch)) ->
  In d2 (downloaded_files (final the_fetch)) ->
  no_slash name = true ->
  key d1 = (p1 ++ "/" ++ name)%string ->
  key d2 = (p2 ++ "/" ++ name)%string ->
  file_path d1 = Py.path_join download_dir name
  /\ file_path d2 = file_path d1.
Proof.
  intros H1 H2 Hname Hk1 Hk2.
  destruct provider_downloads as (fetched & Hd & _ & _).
  rewrite Hd in H1, H2.
  apply in_map_iff in H1 as (o1 & <- & _).
  apply in_map_iff in H2 as (o2 & <- & _).
  unfold entry_for in *. cbn [file_path key] in *.
  rewrite Hk1, Hk2, !basename_of_prefixed by exact Hname.
  split; reflexivity.
Qed.

End ProviderRun.

(* ================================================================== *)
(** ** The Processor: failures, counts and provenance *)

Lemma len_none_iff (v : json) : Py.len v = None <-> unsized v.
Proof. destruct v; simpl; split; intros H; try tauto; discriminate. Qed.

Lemma kept_total (w : World) (file_paths : list json) :
  List.length (retained_chunks w file_paths)
  = list_sum (map (kept_count w) file_paths).
Proof.
  induction file_paths as [|fp rest IH]; [reflexivity|].
  rewrite retained_chunks_cons, length_app, retained_chunks_one, length_map, IH.
  reflexivity.
Qed.

Lemma entries_total (w : World) (file_paths : list json) :
  list_sum (map p_chunks (flat_map (processed_entry w) file_paths))
  + list_sum (map (fun e => kept_count w (f_file e))
                  (flat_map (failed_entry w) file_paths))
  = list_sum (map (kept_count w) file_paths).
Proof.
  induction file_paths as [|fp rest IH]; simpl; trivial.
  rewrite !map_app, !list_sum_app, <- IH.
  unfold processed_entry at 1, failed_entry at 1, kept_count at 3.
  destruct (raised (convert_chunk w fp)); simpl; unfold kept_count; lia.
Qed.

Lemma numbered_In (start : nat) (kept : list (Chunk * json))
    (d : LlamaStackDocument) :
  In d (numbered start kept) ->
  exists n chunk fp,
    In (chunk, fp) kept /\ d = make_document n chunk fp.
Proof.
  unfold numbered. intros H. apply in_map_iff in H as ([n [chunk fp]] & <- & H).
  apply in_combine_r in H. exists n, chunk, fp. auto.
Qed.

Lemma retained_chunks_In (w : World) (file_paths : list json)
    (chunk : Chunk) (fp : json) :
  In (chunk, fp) (retained_chunks w file_paths) ->
  In fp file_paths
  /\ In chunk (yielded (convert_chunk w fp))
  /\ retained chunk = true.
Proof.
  unfold retained_chunks. intros H.
  apply in_flat_map in H as (fp' & Hfp & H).
  apply in_map_iff in H as (c & Heq & Hc). inversion Heq; subst.
  apply filter_In in Hc as [Hy Hr]. auto.
Qed.

Section ProcessorMore.

Variable w : World.
Variables document_path metrics_path llama_stack_url embedding_model : string.
Variable embedding_dimension : Z.
Variables provider_id vector_db_id : string.

Local Notation the_run :=
  (rag_docling_component w document_path metrics_path llama_stack_url
     embedding_model embedding_dimension provider_id vector_db_id).

Local Notation registration :=
  (Register vector_db_id embedding_model embedding_dimension provider_id).

(** X7. When the input is an existing [.json] file that parses to an
    object whose selected value (the one under [document_paths], or under
    [documents] when [document_paths] is absent) is null, a boolean or a
    number, the Processor raises the [TypeError] of [len(documents)]: no
    document has been converted, no remote call has been made and no
    metrics are written. *)
Theorem processor_raises_on_unsized_value
    (file_data : list (string * json)) (v : json) :
  isfile w document_path = true ->
  Py.endswith document_path ".json" = true ->
  json_load w document_path = Some (JObj file_data) ->
  Py.getitem "document_paths" file_data = Some v
  \/ (Py.getitem "document_paths" file_data = None
      /\ Py.getitem "documents" file_data = Some v) ->
  unsized v ->
  resolve_documents w document_path = v
  /\ the_run = {| events := []; outcome := Raised "TypeError" |}.
Proof.
  intros Hfile Hext Hload Hkey Hv.
  assert (H : resolve_documents w document_path = v).
  { unfold resolve_documents. rewrite Hfile, Hext, Hload.
    destruct Hkey as [H | [H1 H2]]; [now rewrite H | now rewrite H1, H2]. }
  split; [exact H|]. apply run_of_unsized. rewrite H.
  now apply len_none_iff.
Qed.

(** X8. In the metrics of a run, [total_chunks] is the sum of the
    [chunks] counts of the processed documents plus the retained chunks
    of the failed documents: chunks a document delivered before it
    raised stay in the inserted list although the document is reported
    as failed.  So the per-document counts add up to at most
    [total_chunks]. *)
Theorem total_chunks_includes_failed_documents (file_paths : list json) :
  Py.iter (resolve_documents w document_path) = Some file_paths ->
  exists docs metrics,
    events the_run
    = [ registration; Insert docs vector_db_id 512;
        WriteMetrics metrics_path metrics ]
    /\ total_chunks metrics
       = list_sum (map p_chunks (m_processed_documents metrics))
         + list_sum (map (fun e => kept_count w (f_file e))
                         (m_failed_documents metrics))
    /\ list_sum (map p_chunks (m_processed_documents metrics))
       <= total_chunks metrics.
Proof.
  intros Hiter. rewrite (run_of_iterable _ _ _ _ _ _ _ _ _ Hiter).
  destruct (document_loop_spec w file_paths initial_state)
    as (_ & Hd & Hp & Hf).
  cbv zeta in Hd, Hp, Hf. simpl in Hd, Hp, Hf.
  eexists. eexists. split; [reflexivity|].
  cbn [total_chunks m_processed_documents m_failed_documents].
  rewrite Hd, Hp, Hf, numbered_length, kept_total, <- entries_total.
  split; [reflexivity|lia].
Qed.

(** X9. Every record handed to the insertion call has mime type
    ["text/plain"], the text of a chunk that passed the label test as its
    content, and as its one metadata entry [source] the document that
    chunk was delivered for. *)
Theorem records_carry_text_and_source (docs : list LlamaStackDocument)
    (vid : string) (tokens : Z) (d : LlamaStackDocument) :
  In (Insert docs vid tokens) (events the_run) ->
  In d docs ->
  mime_type d = "text/plain"%string
  /\ exists file_paths fp chunk,
       Py.iter (resolve_documents w document_path) = Some file_paths
       /\ In fp file_paths
       /\ In chunk (yielded (convert_chunk w fp))
       /\ retained chunk = true
       /\ content d = text chunk
       /\ metadata d = [("source"%string, fp)].
Proof.
  intros Hin Hd.
  destruct (run_cases w document_path metrics_path llama_stack_url
              embedding_model embedding_dimension provider_id vector_db_id)
    as [[file_paths [Hiter Hrun]] | Hrun]; cbv zeta in Hrun;
    rewrite Hrun in Hin; simpl in Hin; [|contradiction].
  destruct Hin as [H | [H | [H | []]]]; try discriminate.
  inversion H; subst. rewrite loop_documents in Hd.
  apply numbered_In in Hd as (n & chunk & fp & Hkept & ->).
  apply retained_chunks_In in Hkept as (Hfp & Hy & Hr).
  split; [reflexivity|]. exists file_paths, fp, chunk. auto 10.
Qed.

(** X10. When the insertion call raises, the failure is recorded under
    [vector_db_insertion], the call is not made a second time, the
    metrics are still written and the run returns the number of Chunk
    Records it had prepared. *)
Theorem insertion_failure_is_recorded_not_retried
    (docs : list LlamaStackDocument) (err : string) :
  In (Insert docs vector_db_id 512) (events the_run) ->
  rag_tool_insert (LlamaStackClient w llama_stack_url) docs vector_db_id 512
  = Some err ->
  exists metrics,
    the_run
    = {| events := [ registration; Insert docs vector_db_id 512;
                     WriteMetrics metrics_path metrics ];
         outcome := Returned (List.length docs) |}
    /\ vector_db_insertion metrics = Failed err
    /\ total_chunks metrics = List.length docs
    /\ List.length (filter is_insert (events the_run)) = 1.
Proof.
  intros Hin Herr.
  destruct (run_cases w document_path metrics_path llama_stack_url
              embedding_model embedding_dimension provider_id vector_db_id)
    as [[file_paths [Hiter Hrun]] | Hrun]; cbv zeta in Hrun;
    rewrite Hrun in *; simpl in Hin; [|contradiction].
  destruct Hin as [H | [H | [H | []]]]; try discriminate.
  inversion H as [Hdocs]. eexists. split; [reflexivity|].
  cbn [vector_db_insertion total_chunks]. rewrite Hdocs, Herr.
  repeat split.
Qed.

End ProcessorMore.

Lemma resolve_same (w w' : World) (document_path : string) :
  same_documents w w' ->
  resolve_documents w document_path = resolve_documents w' document_path.
Proof.
  intros (Hfile & Hload & _). unfold resolve_documents.
  now rewrite Hfile, Hload.
Qed.

Lemma document_loop_same (w w' : World) (file_paths : list json)
    (st : LoopState) :
  same_documents w w' ->
  document_loop w file_paths st = document_loop w' file_paths st.
Proof.
  intros (_ & _ & Hconv). revert st.
  induction file_paths as [|fp rest IH]; intros st; [reflexivity|].
  unfold document_loop in *. simpl. rewrite <- IH. f_equal.
  unfold process_document. now rewrite Hconv.
Qed.

(** X11. What the remote services answer has no influence on the
    documents: two worlds with the same files, parser results and
    converter give runs with the same outcome, the same list handed to
    the insertion call and metrics that differ at most in
    [vector_db_registration] and [vector_db_insertion]. *)
Theorem remote_services_do_not_change_the_documents (w w' : World)
    (document_path metrics_path llama_stack_url embedding_model : string)
    (embedding_dimension : Z) (provider_id vector_db_id : string) :
  same_documents w w' ->
  let r := rag_docling_component w document_path metrics_path llama_stack_url
             embedding_model embedding_dimension provider_id vector_db_id in
  let r' := rag_docling_component w' document_path metrics_path
              llama_stack_url embedding_model embedding_dimension provider_id
              vector_db_id in
  outcome r = outcome r'
  /\ (forall docs metrics,
        events r = [ Register vector_db_id embedding_model
                              embedding_dimension provider_id;
                     Insert docs vector_db_id 512;
                     WriteMetrics metrics_path metrics ] ->
        exists metrics',
          events r' = [ Register vector_db_id embedding_model
                                 embedding_dimension provider_id;
                        Insert docs vector_db_id 512;
                        WriteMetrics metrics_path metrics' ]
          /\ document_count metrics' = document_count metrics
          /\ m_processed_documents metrics' = m_processed_documents metrics
          /\ m_failed_documents metrics' = m_failed_documents metrics
          /\ total_chunks metrics' = total_chunks metrics).
Proof.
  intros Hsame. cbv zeta. unfold rag_docling_component.
  rewrite <- (resolve_same w w' document_path Hsame).
  destruct (Py.len (resolve_documents w document_path)) as [n|];
    [|split; [reflexivity|discriminate]].
  destruct (Py.iter (resolve_documents w document_path)) as [file_paths|];
    [|split; [reflexivity|discriminate]].
  rewrite <- (document_loop_same w w' file_paths initial_state Hsame).
  split; [reflexivity|].
  intros docs metrics H. unfold report in *. cbn [events] in *.
  inversion H; subst. eexists. split; [reflexivity|]. repeat split.
Qed.

(* ================================================================== *)
(** ** The local driver: Provider, then Processor *)

Lemma path_join_ends_with (a b : string) :
  exists pre, Py.path_join a b = (pre ++ b)%string.
Proof.
  unfold Py.path_join. destruct (String.eqb a "").
  - now exists ""%string.
  - destruct (Py.endswith a "/").
    + now exists a.
    + exists (a ++ "/")%string. now rewrite append_assoc.
Qed.

(** Whatever the temporary directory, the manifest path ends in
    [.json]. *)
Lemma provider_output_is_json (temp_dir : string) :
  Py.endswith (Py.path_join temp_dir "document_provider_output.json") ".json"
  = true.
Proof.
  apply endswith_iff.
  destruct (path_join_ends_with temp_dir "document_provider_output.json")
    as [pre ->].
  exists (pre ++ "document_provider_output")%string.
  now rewrite append_assoc.
Qed.

Lemma path_join_not_empty (a b : string) :
  b <> ""%string -> Py.path_join a b <> ""%string.
Proof.
  intros Hb H. destruct (path_join_ends_with a b) as [pre Hpre].
  rewrite H in Hpre. destruct pre; simpl in Hpre; [congruence|discriminate].
Qed.

(** The Processor on a manifest just written: it reads the list under
    [document_paths] and goes through the loop and the closing steps. *)
Lemma processor_on_written_manifest (w : World)
    (output metrics_path llama_stack_url embedding_model : string)
    (embedding_dimension : Z) (provider_id vector_db_id : string)
    (top : list (string * json)) (file_paths : list json) :
  Py.endswith output ".json" = true ->
  Py.getitem "document_paths" top = Some (JList file_paths) ->
  rag_docling_component (write_json w output (JObj top)) output metrics_path
    llama_stack_url embedding_model embedding_dimension provider_id
    vector_db_id
  = report (LlamaStackClient w llama_stack_url) metrics_path embedding_model
      embedding_dimension provider_id vector_db_id
      (List.length file_paths) (document_loop w file_paths initial_state).
Proof.
  intros Hext Hpaths.
  assert (H : Py.iter (resolve_documents (write_json w output (JObj top))
                                         output) = Some file_paths).
  { unfold resolve_documents. cbn [isfile json_load write_json].
    now rewrite String.eqb_refl, Hext, Hpaths. }
  rewrite (run_of_iterable _ _ _ _ _ _ _ _ _ H). reflexivity.
Qed.

Lemma metrics_file_of_report (client : Client)
    (metrics_path embedding_model : string) (embedding_dimension : Z)
    (provider_id vector_db_id : string) (n : nat) (st : LoopState) :
  exists metrics,
    events (report client metrics_path embedding_model embedding_dimension
              provider_id vector_db_id n st)
    = [ Register vector_db_id embedding_model embedding_dimension provider_id;
        Insert (llama_documents st) vector_db_id 512;
        WriteMetrics metrics_path metrics ]
    /\ document_count metrics = n
    /\ total_chunks metrics = List.length (llama_documents st)
    /\ metrics_file metrics_path
         (events (report client metrics_path embedding_model
                    embedding_dimension provider_id vector_db_id n st))
       = Some (metrics_json metrics).
Proof.
  eexists. split; [reflexivity|]. split; [reflexivity|].
  split; [reflexivity|]. simpl. now rewrite String.eqb_refl.
Qed.

Section Pipeline.

Variable w : World.
Variable temp_dir : string.
Variables bucket_name minio_endpoint minio_access_key minio_secret_key
          file_prefix : string.
Variable file_extensions : list string.
Variable max_files : Z.
Variable download_dir : option string.
Variables llama_stack_url embedding_model : string.
Variable embedding_dimension : Z.
Variables provider_id vector_db_id : string.
Variable cleanup : bool.

Local Notation pipeline use_local_files local_files_dir :=
  (run_local_pipeline w temp_dir bucket_name minio_endpoint minio_access_key
     minio_secret_key file_prefix file_extensions max_files download_dir
     llama_stack_url embedding_model embedding_dimension provider_id
     vector_db_id use_local_files local_files_dir cleanup).

Local Notation output :=
  (Py.path_join temp_dir "document_provider_output.json").
Local Notation metrics_output := (Py.path_join temp_dir "metrics.json").

(** The Processor's part of a pipeline run over [file_paths]. *)
Local Notation processing n file_paths :=
  (report (LlamaStackClient w llama_stack_url) metrics_output embedding_model
     embedding_dimension provider_id vector_db_id n
     (document_loop w file_paths initial_state)).

Local Notation target :=
  (match download_dir with
   | None => Py.path_join temp_dir "downloads"
   | Some d => d
   end).

Local Notation s3 :=
  (boto3_client w minio_endpoint minio_access_key minio_secret_key).

Lemma local_pipeline_run (dir : string) :
  dir <> ""%string ->
  let paths :=
    flat_map (fun ext => glob w dir ("*" ++ ext)%string) file_extensions in
  let r := pipeline true (Some dir) in
  pr_manifest r = Some (output, local_manifest dir paths)
  /\ pr_processor r
     = Some (processing (List.length paths) (map JStr paths))
  /\ pr_removed r = (if cleanup then Some temp_dir else None)
  /\ exists metrics,
       In (WriteMetrics metrics_output metrics)
          (events (processing (List.length paths) (map JStr paths)))
       /\ document_count metrics = List.length paths
       /\ pr_outcome r = Returned (metrics_json metrics).
Proof.
  intros Hdir. cbv zeta. unfold run_local_pipeline, local_files_provider.
  destruct (String.eqb_spec dir "") as [E|_]; [contradiction|].
  unfold local_manifest.
  erewrite processor_on_written_manifest;
    [|apply provider_output_is_json|reflexivity].
  rewrite length_map. cbn [pr_manifest pr_processor pr_removed pr_outcome].
  split; [reflexivity|]. split; [reflexivity|]. split; [reflexivity|].
  match goal with
  | |- context [report ?c ?m ?em ?ed ?p ?v ?n ?st] =>
      destruct (metrics_file_of_report c m em ed p v n st)
        as (metrics & Hev & Hcount & _ & Hfile)
  end.
  exists metrics. rewrite Hfile, Hev. cbn [outcome report].
  split; [right; right; left; reflexivity|]. split; [exact Hcount|reflexivity].
Qed.

Lemma bucket_pipeline_run (local_files_dir : option string) :
  let r := pipeline false local_files_dir in
  exists fetched,
    let paths :=
      map (fun o => JStr (Py.path_join target (Py.basename (Key o))))
          fetched in
    (forall o, In o fetched ->
               In o (all_objects (paginate s3 bucket_name file_prefix))
               /\ fetchable s3 bucket_name target file_extensions o = true)
    /\ (Z.of_nat (List.length fetched) <= Z.max 1 max_files)%Z
    /\ pr_manifest r
       = Some (output,
               bucket_manifest bucket_name minio_endpoint
                 (map (entry_for target) fetched))
    /\ pr_processor r = Some (processing (List.length fetched) paths)
    /\ pr_removed r = (if cleanup then Some temp_dir else None)
    /\ exists metrics,
         In (WriteMetrics metrics_output metrics)
            (events (processing (List.length fetched) paths))
         /\ document_count metrics = List.length fetched
         /\ pr_outcome r = Returned (metrics_json metrics).
Proof.
  cbv zeta. unfold run_local_pipeline.
  destruct (provider_downloads_bounded w output bucket_name minio_endpoint
              minio_access_key minio_secret_key file_prefix file_extensions
              max_files target) as (fetched & Hd & Hin & Hcap).
  exists fetched. split; [exact Hin|]. split; [exact Hcap|].
  unfold s3_document_provider in *. cbn [final written snd] in *.
  rewrite Hd. unfold bucket_manifest.
  erewrite processor_on_written_manifest;
    [|apply provider_output_is_json|reflexivity].
  rewrite !map_map, !length_map.
  cbn [pr_manifest pr_processor pr_removed pr_outcome file_path entry_for].
  split; [reflexivity|]. split; [reflexivity|]. split; [reflexivity|].
  match goal with
  | |- context [report ?c ?m ?em ?ed ?p ?v ?n ?st] =>
      destruct (metrics_file_of_report c m em ed p v n st)
        as (metrics & Hev & Hcount & _ & Hfile)
  end.
  exists metrics. rewrite Hfile, Hev. cbn [outcome report].
  split; [right; right; left; reflexivity|]. split; [exact Hcount|reflexivity].
Qed.

(** X12. With [use_local_files] and a non-empty directory the driver
    writes the local manifest to
    [temp_dir/document_provider_output.json]; the Processor, called on
    that path, takes the manifest branch and goes through exactly the
    globbed paths, in order; the driver returns the metrics the Processor
    wrote to [temp_dir/metrics.json], whose [document_count] is the
    number of globbed paths.  The temporary directory is removed exactly
    when [cleanup] is set. *)
Theorem local_pipeline_processes_the_globbed_files (dir : string) :
  dir <> ""%string ->
  let paths :=
    flat_map (fun ext => glob w dir ("*" ++ ext)%string) file_extensions in
  let r := pipeline true (Some dir) in
  pr_manifest r = Some (output, local_manifest dir paths)
  /\ pr_processor r
     = Some (processing (List.length paths) (map JStr paths))
  /\ pr_removed r = (if cleanup then Some temp_dir else None)
  /\ exists metrics,
       In (WriteMetrics metrics_output metrics)
          (events (processing (List.length paths) (map JStr paths)))
       /\ document_count metrics = List.length paths
       /\ pr_outcome r = Returned (metrics_json metrics).
Proof. exact (local_pipeline_run dir). Qed.

(** X13. Without [use_local_files] the driver runs the bucket Provider
    with the download directory [temp_dir/downloads] unless one is given,
    and the Processor then goes through exactly the local paths of the
    downloaded objects, in order.  The driver returns the metrics the
    Processor wrote; their [document_count] is the number of downloaded
    files, at most [max_files] for a cap of one or more and at most one
    otherwise. *)
Theorem bucket_pipeline_processes_the_downloads
    (local_files_dir : option string) :
  let r := pipeline false local_files_dir in
  exists fetched,
    let paths :=
      map (fun o => JStr (Py.path_join target (Py.basename (Key o))))
          fetched in
    (forall o, In o fetched ->
               In o (all_objects (paginate s3 bucket_name file_prefix))
               /\ fetchable s3 bucket_name target file_extensions o = true)
    /\ (Z.of_nat (List.length fetched) <= Z.max 1 max_files)%Z
    /\ pr_manifest r
       = Some (output,
               bucket_manifest bucket_name minio_endpoint
                 (map (entry_for target) fetched))
    /\ pr_processor r = Some (processing (List.length fetched) paths)
    /\ pr_removed r = (if cleanup then Some temp_dir else None)
    /\ exists metrics,
         In (WriteMetrics metrics_output metrics)
            (events (processing (List.length fetched) paths))
         /\ document_count metrics = List.length fetched
         /\ pr_outcome r = Returned (metrics_json metrics).
Proof. exact (bucket_pipeline_run local_files_dir). Qed.

(** X14. When [use_local_files] is set and [local_files_dir] is missing
    or empty, the driver raises the [ValueError] before anything is
    written: no manifest, no call of the Processor; the [finally] block
    still removes the temporary directory exactly when [cleanup] is
    set. *)
Theorem pipeline_without_directory_raises (local_files_dir : option string) :
  local_files_dir = None \/ local_files_dir = Some ""%string ->
  let r := pipeline true local_files_dir in
  pr_outcome r
  = Raised "local_files_dir must be provided when use_local_files=True"
  /\ pr_manifest r = None
  /\ pr_processor r = None
  /\ pr_removed r = (if cleanup then Some temp_dir else None).
Proof. intros [-> | ->]; cbv zeta; repeat split. Qed.

End Pipeline.

(** X15. [main] of [run_local_programmatic.py] never meets the missing
    directory error: it writes the manifest of the [*.pdf] entries of
    [package_dir/data/sample_documents], has the Processor go through
    them, returns the metrics with their number as [document_count], and
    removes the temporary directory. *)
Theorem main_processes_the_sample_documents (w : World)
    (temp_dir package_dir : string) :
  let data_dir :=
    Py.path_join (Py.path_join package_dir "data") "sample_documents" in
  let paths := glob w data_dir "*.pdf" in
  let r := main w temp_dir package_dir in
  pr_manifest r
  = Some (Py.path_join temp_dir "document_provider_output.json",
          local_manifest data_dir paths)
  /\ pr_removed r = Some temp_dir
  /\ exists metrics,
       document_count metrics = List.length paths
       /\ pr_outcome r = Returned (metrics_json metrics).
Proof.
  cbv zeta. unfold main.
  set (data_dir :=
         Py.path_join (Py.path_join package_dir "data") "sample_documents").
  assert (Hdir : data_dir <> ""%string)
    by (apply path_join_not_empty; discriminate).
  destruct (local_pipeline_run w temp_dir "local-test-bucket"
              "http://localhost:9000" "minioadmin" "minioadmin" "" [".pdf"]
              10 None "http://localhost:8321" "all-MiniLM-L6-v2" 384
              "pgvector" "programmatic-test-db" true data_dir Hdir)
    as (Hman & _ & Hrm & metrics & _ & Hcount & Hout).
  cbv zeta in Hman, Hrm, Hcount, Hout. simpl flat_map in Hman, Hcount.
  rewrite app_nil_r in Hman, Hcount.
  split; [exact Hman|]. split; [exact Hrm|].
  exists metrics. split; [exact Hcount | exact Hout].
Qed.

(* ================================================================== *)
(** ** The further theorems at the sample worlds *)

Lemma downloads_are_the_first_fetchable_witness :
  (1 <= 1)%Z
  /\ Z.of_nat (List.length
                 (downloaded_files
                    (final (Sample.fetch Sample.three_documents 1))))
     = Z.min 1 (Z.of_nat
                  (List.length
                     (filter (fetchable Sample.bucket "llama" "/tmp/documents"
                                        [".pdf"])
                             (all_objects
                                (paginate Sample.bucket "llama" ""))))).
Proof.
  split; [lia|].
  exact (proj2 (downloads_are_the_first_fetchable Sample.three_documents
                  "manifest.json" "llama" "http://minio-service:9000" "minio"
                  "minio123" "" [".pdf"] 1 "/tmp/documents" ltac:(lia))).
Defined.

Lemma nonpositive_cap_still_downloads_one_witness :
  (0 <= 0)%Z
  /\ List.length
       (downloaded_files (final (Sample.fetch Sample.three_documents 0)))
     <= 1.
Proof.
  split; [lia|].
  exact (proj2 (nonpositive_cap_still_downloads_one Sample.three_documents
                  "manifest.json" "llama" "http://minio-service:9000" "minio"
                  "minio123" "" [".pdf"] 0 "/tmp/documents" ltac:(lia))).
Defined.

Lemma same_file_name_same_local_path_witness :
  In (entry_for "/tmp/documents" (Sample.obj "2023/report.pdf"))
     (downloaded_files (final (Sample.fetch Sample.nested_world 10)))
  /\ In (entry_for "/tmp/documents" (Sample.obj "2024/report.pdf"))
        (downloaded_files (final (Sample.fetch Sample.nested_world 10)))
  /\ file_path (entry_for "/tmp/documents" (Sample.obj "2024/report.pdf"))
     = file_path (entry_for "/tmp/documents" (Sample.obj "2023/report.pdf")).
Proof.
  assert (H1 : In (entry_for "/tmp/documents" (Sample.obj "2023/report.pdf"))
                  (downloaded_files
                     (final (Sample.fetch Sample.nested_world 10))))
    by (left; reflexivity).
  assert (H2 : In (entry_for "/tmp/documents" (Sample.obj "2024/report.pdf"))
                  (downloaded_files
                     (final (Sample.fetch Sample.nested_world 10))))
    by (right; left; reflexivity).
  split; [exact H1|]. split; [exact H2|].
  exact (proj2 (same_file_name_same_local_path Sample.nested_world
                  "manifest.json" "llama" "http://minio-service:9000" "minio"
                  "minio123" "" [".pdf"] 10 "/tmp/documents" _ _
                  "2023" "2024" "report.pdf" H1 H2 eq_refl eq_refl eq_refl)).
Defined.

Lemma total_chunks_includes_failed_documents_witness :
  Py.iter (resolve_documents Sample.three_documents "manifest.json")
  = Some Sample.paths
  /\ exists docs metrics,
       events (Sample.run Sample.three_documents "manifest.json")
       = [ Register "pgvector" "all-MiniLM-L6-v2" 384 "pgvector";
           Insert docs "pgvector" 512;
           WriteMetrics "metrics.json" metrics ]
       /\ list_sum (map p_chunks (m_processed_documents metrics))
          <= total_chunks metrics.
Proof.
  split; [reflexivity|].
  destruct (total_chunks_includes_failed_documents Sample.three_documents
              "manifest.json" "metrics.json" "http://localhost:8321"
              "all-MiniLM-L6-v2" 384 "pgvector" "pgvector" Sample.paths
              eq_refl) as (docs & metrics & H1 & _ & H3).
  exists docs, metrics. split; assumption.
Defined.

Lemma records_carry_text_and_source_witness :
  In (Insert Sample.inserted "pgvector" 512)
     (events (Sample.run Sample.three_documents "manifest.json"))
  /\ In (make_document 4 (Sample.prose "four") (JStr "b.pdf")) Sample.inserted
  /\ mime_type (make_document 4 (Sample.prose "four") (JStr "b.pdf"))
     = "text/plain"%string.
Proof.
  assert (H1 : In (Insert Sample.inserted "pgvector" 512)
                  (events (Sample.run Sample.three_documents "manifest.json")))
    by (right; left; reflexivity).
  assert (H2 : In (make_document 4 (Sample.prose "four") (JStr "b.pdf"))
                  Sample.inserted)
    by (do 3 right; left; reflexivity).
  split; [exact H1|]. split; [exact H2|].
  exact (proj1 (records_carry_text_and_source Sample.three_documents
                  "manifest.json" "metrics.json" "http://localhost:8321"
                  "all-MiniLM-L6-v2" 384 "pgvector" "pgvector"
                  Sample.inserted "pgvector" 512 _ H1 H2)).
Defined.

Lemma insertion_failure_is_recorded_not_retried_witness :
  In (Insert Sample.inserted "pgvector" 512)
     (events (Sample.run Sample.full_store_world "manifest.json"))
  /\ rag_tool_insert
       (LlamaStackClient Sample.full_store_world "http://localhost:8321")
       Sample.inserted "pgvector" 512
     = Some "disk full"%string
  /\ exists metrics,
       outcome (Sample.run Sample.full_store_world "manifest.json")
       = Returned (List.length Sample.inserted)
       /\ vector_db_insertion metrics = Failed "disk full".
Proof.
  assert (H : In (Insert Sample.inserted "pgvector" 512)
                 (events (Sample.run Sample.full_store_world "manifest.json")))
    by (right; left; reflexivity).
  split; [exact H|]. split; [reflexivity|].
  destruct (insertion_failure_is_recorded_not_retried Sample.full_store_world
              "manifest.json" "metrics.json" "http://localhost:8321"
              "all-MiniLM-L6-v2" 384 "pgvector" "pgvector" Sample.inserted
              "disk full" H eq_refl) as (metrics & Hrun & Hfail & _).
  exists metrics. unfold Sample.run. rewrite Hrun. split; [reflexivity|exact Hfail].
Defined.

Lemma remote_services_do_not_change_the_documents_witness :
  same_documents Sample.three_documents Sample.full_store_world
  /\ outcome (Sample.run Sample.three_documents "manifest.json")
     = outcome (Sample.run Sample.full_store_world "manifest.json").
Proof.
  assert (H : same_documents Sample.three_documents Sample.full_store_world)
    by (repeat split).
  split; [exact H|].
  exact (proj1 (remote_services_do_not_change_the_documents
                  Sample.three_documents Sample.full_store_world
                  "manifest.json" "metrics.json" "http://localhost:8321"
                  "all-MiniLM-L6-v2" 384 "pgvector" "pgvector" H)).
Defined.

Lemma local_pipeline_processes_the_globbed_files_witness :
  "docs"%string <> ""%string
  /\ pr_removed (Sample.pipeline Sample.three_documents 10 true (Some "docs")
                                 true)
     = Some "/tmp/rag_pipeline_x"%string.
Proof.
  assert (H : "docs"%string <> ""%string) by discriminate.
  split; [exact H|].
  exact (proj1 (proj2 (proj2
           (local_pipeline_processes_the_globbed_files Sample.three_documents
              "/tmp/rag_pipeline_x" "local-test-bucket"
              "http://localhost:9000" "minioadmin" "minioadmin" "" [".pdf"]
              10 None "http://localhost:8321" "all-MiniLM-L6-v2" 384
              "pgvector" "test-vector-db" true "docs" H)))).
Defined.

(** The local pipeline on the sample world: two PDF files are found,
    ["docs/b.pdf"] is not the failing ["b.pdf"], so both are processed. *)
Example local_pipeline_metrics :
  pr_outcome (Sample.pipeline Sample.three_documents 10 true (Some "docs")
                              false)
  = Returned
      (JObj [ ("document_count", JInt 2);
              ("processed_documents",
               JList [ JObj [("file", JStr "docs/a.pdf"); ("chunks", JInt 1)];
                       JObj [("file", JStr "docs/b.pdf"); ("chunks", JInt 1)] ]);
              ("failed_documents", JList []);
              ("total_chunks", JInt 2);
              ("vector_db_registration",
               JObj [("status", JStr "failed");
                     ("error", JStr "connection refused")]);
              ("vector_db_insertion", JStr "success") ]).
Proof. reflexivity. Qed.

Lemma extension_filter_ignores_case_witness :
  is_ascii "reports/Q3.PDF" = true
  /\ forallb is_ascii [".pdf"; ".docx"] = true
  /\ matches_extension [".pdf"; ".docx"] "reports/Q3.PDF" = true.
Proof.
  split; [reflexivity|]. split; [reflexivity|].
  apply (extension_filter_ignores_case [".pdf"; ".docx"] "reports/Q3.PDF"
           eq_refl eq_refl).
  exists ".pdf"%string, "reports/Q3"%string, ".PDF"%string.
  split; [left; reflexivity|]. split; reflexivity.
Defined.

Lemma processor_raises_on_unsized_value_witness :
  isfile Sample.number_for_paths "manifest.json" = true
  /\ unsized (JInt 5)
  /\ Sample.run Sample.number_for_paths "manifest.json"
     = {| events := []; outcome := Raised "TypeError" |}.
Proof.
  split; [reflexivity|]. split; [exact I|].
  exact (proj2 (processor_raises_on_unsized_value Sample.number_for_paths
                  "manifest.json" "metrics.json" "http://localhost:8321"
                  "all-MiniLM-L6-v2" 384 "pgvector" "pgvector"
                  [("document_paths", JInt 5)] (JInt 5)
                  eq_refl eq_refl eq_refl (or_introl eq_refl) I)).
Defined.

Lemma pipeline_without_directory_raises_witness :
  (@None string = None \/ @None string = Some ""%string)
  /\ pr_manifest (Sample.pipeline Sample.three_documents 10 true None true)
     = None
  /\ pr_removed (Sample.pipeline Sample.three_documents 10 true None true)
     = Some "/tmp/rag_pipeline_x"%string.
Proof.
  assert (H : @None string = None \/ @None string = Some ""%string)
    by (left; reflexivity).
  split; [exact H|].
  destruct (pipeline_without_directory_raises Sample.three_documents
              "/tmp/rag_pipeline_x" "local-test-bucket"
              "http://localhost:9000" "minioadmin" "minioadmin" "" [".pdf"]
              10 None "http://localhost:8321" "all-MiniLM-L6-v2" 384
              "pgvector" "test-vector-db" true None H)
    as (_ & Hm & _ & Hr).
  split; assumption.
Defined.
